(** * Sora2API client (src/services/api/sora.ts)

    A shallow embedding of the provider client [SoraApiClient], of the
    module-level singleton [soraApiClient] and of the configuration API
    [soraConfigApi], together with the properties of the connection test.

    The code is sequential [async] code over one shared mutable client.  It
    is embedded in a state-and-exception monad over a [World] that holds the
    singleton client, the browser's [localStorage] and a trace of what the
    run did.  The remote service is a parameter: an oracle that answers each
    [fetch] from the request and from the trace so far.  One flow of control
    is modelled: nothing else touches the client between two [await]s.

    The handlers of the page that drives the client (SoraPage.tsx) are
    embedded in the module [SoraPage], over the state of its hooks. *)

From Stdlib Require Import Floats.PrimFloat Strings.Ascii.
From stdpp Require Import base strings list gmap.

Set Default Proof Using "Type".

(** ** JavaScript values *)

(** The values [JSON.parse] and [response.json()] can produce, and
    [undefined].  Numbers are IEEE 754 doubles.  An object is the list of
    its own properties. *)
#[warnings="-register-all"]
Inductive value : Type :=
| VUndefined
| VNull
| VBool (b : bool)
| VNum (x : float)
| VStr (s : string)
| VArr (items : list value)
| VObj (props : list (string * value)).

(** ToBoolean: [undefined], [null], [false], [+0], [-0], [NaN] and the empty
    string are falsy, everything else is truthy. *)
Definition truthy (v : value) : bool :=
  match v with
  | VUndefined | VNull => false
  | VBool b => b
  | VNum x => negb (PrimFloat.eqb x 0%float || PrimFloat.is_nan x)
  | VStr s => negb (String.eqb s "")
  | VArr _ | VObj _ => true
  end.

(** What a [throw] carries; [error_to_string] is [Error.prototype.toString],
    which the template literal in [testConnection]'s handler applies. *)
Record JsError : Type := mkError { err_name : string; err_message : string }.

Definition error_to_string (e : JsError) : string :=
  if String.eqb (err_name e) "" then err_message e
  else if String.eqb (err_message e) "" then err_name e
  else err_name e +:+ ": " +:+ err_message e.

Inductive completion (A : Type) : Type :=
| Normal (a : A)
| Throw (e : JsError).
Arguments Normal {A} a.
Arguments Throw {A} e.

Fixpoint assoc (k : string) (props : list (string * value)) : option value :=
  match props with
  | [] => None
  | (k', v) :: rest => if String.eqb k k' then Some v else assoc k rest
  end.

(** Property read [v.k], for the names the program reads ([success] and
    [token]), which no prototype defines: a property of [null] or
    [undefined] cannot be read, an object yields its own property or
    [undefined], every other value yields [undefined]. *)
Definition get_prop (v : value) (k : string) : completion value :=
  match v with
  | VUndefined | VNull =>
      Throw (mkError "TypeError" ("Cannot read properties of null or undefined (reading '" +:+ k +:+ "')"))
  | VObj props => Normal (default VUndefined (assoc k props))
  | _ => Normal VUndefined
  end.

(** Whether ToString of a value throws.  A parsed object has no callable
    property, so one with an own property [toString] cannot be converted to
    a primitive: its [toString] is not callable and [valueOf], its own or
    the inherited one, yields no primitive.  Every other object prints as
    [[object Object]].  An array joins the strings of its elements, [null]
    and [undefined] counting as empty, and throws when one of them does.
    Primitives always have a string. *)
Fixpoint to_string_throws (v : value) : bool :=
  match v with
  | VUndefined | VNull | VBool _ | VNum _ | VStr _ => false
  | VArr items => existsb to_string_throws items
  | VObj props => bool_decide (is_Some (assoc "toString" props))
  end.

(** ** Requests, responses and the trace *)

(** A header value is a literal or the template [`Bearer ${token}`], kept
    symbolic in the interpolated token: [Bearer t] is the text [Bearer ]
    followed by the string of [t], for a [t] that has one. *)
Inductive header_value : Type :=
| Lit (s : string)
| Bearer (t : value).

(** The arguments of one [fetch].  [req_body] is the value handed to
    [JSON.stringify]; [req_timeout] is the delay of [AbortSignal.timeout]. *)
Record Request : Type := mkRequest {
  req_url : string;
  req_method : option string;
  req_headers : list (string * header_value);
  req_body : option value;
  req_timeout : option N
}.

(** A response: [response.ok], and what [response.json()] completes with. *)
Record Response : Type := mkResponse {
  ok : bool;
  json : completion value
}.

Inductive fetch_outcome : Type :=
| Rejected (e : JsError)
| Responded (r : Response).

Inductive method : Type :=
| MSetBaseUrl | MLogin | MCheckHealth | MGetStats | MGetTokens | MTriggerSync.

(** The trace is ghost state, what a spy on the client and on the transport
    records: each entry into a method of the client, each [fetch] issued and
    each [console.error]. *)
Inductive event : Type :=
| Invoke (m : method)
| Fetch (r : Request)
| ConsoleError (label : string) (e : JsError).

(** The remote side: the outcome of a [fetch], given the trace before it.
    Every [fetch] has an outcome here.  In the code only the probe of
    [checkHealth] is bound in time; a request that never settles leaves the
    run suspended at its [await], and such a run has no image in this
    embedding: what is proved is about the runs in which every awaited
    [fetch] settles. *)
Definition network : Type := list event -> Request -> fetch_outcome.

(** ** The world *)

(** The two private fields of the class.  [token] is declared
    [string | null]; [login] stores [data.token] as it comes out of the
    response, so at run time the field holds [null] or any truthy value. *)
Record SoraApiClient : Type := mkClient {
  baseUrl : string;
  token : value
}.

(** [new SoraApiClient()] *)
Definition new_SoraApiClient : SoraApiClient :=
  {| baseUrl := ""; token := VNull |}.

(** [localStorage] is [None] when access to it throws (storage disabled). *)
Record World : Type := mkWorld {
  soraApiClient : SoraApiClient;
  localStorage : option (gmap string string);
  trace : list event
}.

Definition M (A : Type) : Type := World -> completion A * World.

Definition ret {A} (a : A) : M A := fun w => (Normal a, w).

Definition bind {A B} (m : M A) (k : A -> M B) : M B := fun w =>
  match m w with
  | (Normal a, w') => k a w'
  | (Throw e, w') => (Throw e, w')
  end.

Definition throw {A} (e : JsError) : M A := fun w => (Throw e, w).

Definition lift {A} (c : completion A) : M A := fun w => (c, w).

(** [try { body } catch (e) { handler }]: what [body] did to the world before
    it threw stays done. *)
Definition try_catch {A} (body : M A) (handler : JsError -> M A) : M A := fun w =>
  match body w with
  | (Normal a, w') => (Normal a, w')
  | (Throw e, w') => handler e w'
  end.

Declare Scope js_scope.
Delimit Scope js_scope with js.
Notation "'let*' x ':=' m 'in' k" := (bind m (fun x => k))
  (at level 10, x name, m at level 100, k at level 200) : js_scope.
Notation "m ';;' k" := (bind m (fun _ => k))
  (at level 100, k at level 200, right associativity) : js_scope.
Open Scope js_scope.

Definition this : M SoraApiClient := fun w => (Normal (soraApiClient w), w).

Definition set_this (c : SoraApiClient) : M unit := fun w =>
  (Normal tt, {| soraApiClient := c; localStorage := localStorage w; trace := trace w |}).

Definition emit (e : event) : M unit := fun w =>
  (Normal tt, {| soraApiClient := soraApiClient w; localStorage := localStorage w;
                 trace := trace w ++ [e] |}).

Definition console_error (label : string) (e : JsError) : M unit :=
  emit (ConsoleError label e).

(** [localStorage.getItem(key)] *)
Definition localStorage_getItem (key : string) : M (option string) := fun w =>
  match localStorage w with
  | None => (Throw (mkError "SecurityError" "The operation is insecure."), w)
  | Some store => (Normal (store !! key), w)
  end.

(** ** SoraApiClient *)

(** [url.replace(/\/$/, '')]: without the [m] flag [$] matches at the end of
    the input only, so the last character is dropped when it is a slash. *)
Fixpoint replace_trailing_slash (url : string) : string :=
  match url with
  | EmptyString => EmptyString
  | String c EmptyString => if Ascii.eqb c "/"%char then EmptyString else url
  | String c rest => String c (replace_trailing_slash rest)
  end.

Section Client.

Variable net : network.

(** [await fetch(...)]: the call is recorded, then the network answers. *)
Definition fetch (r : Request) : M Response := fun w =>
  let history := trace w in
  match emit (Fetch r) w with
  | (_, w') =>
      match net history r with
      | Rejected e => (Throw e, w')
      | Responded resp => (Normal resp, w')
      end
  end.

(** The methods of the client.  Each starts by recording its own entry in
    the trace; the rest follows the source statement by statement. *)
Definition setBaseUrl (url : string) : M unit :=
  emit (Invoke MSetBaseUrl);;
  let* self := this in
  set_this {| baseUrl := replace_trailing_slash url; token := token self |}.

Definition login_request (base username password : string) : Request :=
  {| req_url := base +:+ "/api/login";
     req_method := Some "POST";
     req_headers := [("Content-Type", Lit "application/json")];
     req_body := Some (VObj [("username", VStr username); ("password", VStr password)]);
     req_timeout := None |}.

Definition login (username password : string) : M bool :=
  emit (Invoke MLogin);;
  try_catch
    (let* self := this in
     let* response := fetch (login_request (baseUrl self) username password) in
     let* data := lift (json response) in
     let* success := lift (get_prop data "success") in
     if truthy success then
       let* tok := lift (get_prop data "token") in
       if truthy tok then
         (let* self := this in
          set_this {| baseUrl := baseUrl self; token := tok |});;
         ret true
       else ret false
     else ret false)
    (fun error =>
       console_error "Sora2API login failed:" error;;
       ret false).

(** The template literal is evaluated only for a truthy token, and throws
    when the token has no string. *)
Definition getHeaders (self : SoraApiClient) : completion (list (string * header_value)) :=
  if truthy (token self) then
    if to_string_throws (token self)
    then Throw (mkError "TypeError" "Cannot convert object to primitive value")
    else Normal [("Content-Type", Lit "application/json");
                 ("Authorization", Bearer (token self))]
  else Normal [("Content-Type", Lit "application/json")].

Definition health_request (base : string) : Request :=
  {| req_url := base +:+ "/";
     req_method := Some "GET";
     req_headers := [];
     req_body := None;
     req_timeout := Some 5000%N |}.

Definition checkHealth : M bool :=
  emit (Invoke MCheckHealth);;
  try_catch
    (let* self := this in
     let* response := fetch (health_request (baseUrl self)) in
     ret (ok response))
    (fun _ => ret false).

Definition authed_request (self : SoraApiClient) (path : string)
    (headers : list (string * header_value)) : Request :=
  {| req_url := baseUrl self +:+ path;
     req_method := None;
     req_headers := headers;
     req_body := None;
     req_timeout := None |}.

Definition getStats : M value :=
  emit (Invoke MGetStats);;
  let* self := this in
  if negb (truthy (token self)) then ret VNull
  else
    try_catch
      (let* self := this in
       let* headers := lift (getHeaders self) in
       let* response := fetch (authed_request self "/api/stats" headers) in
       if ok response then lift (json response) else ret VNull)
      (fun _ => ret VNull).

Definition getTokens : M value :=
  emit (Invoke MGetTokens);;
  let* self := this in
  if negb (truthy (token self)) then ret (VArr [])
  else
    try_catch
      (let* self := this in
       let* headers := lift (getHeaders self) in
       let* response := fetch (authed_request self "/api/tokens" headers) in
       if ok response then lift (json response) else ret (VArr []))
      (fun _ => ret (VArr [])).

Record SyncResult : Type := mkSyncResult {
  sync_success : bool;
  sync_message : string
}.

Definition triggerSync : M SyncResult :=
  emit (Invoke MTriggerSync);;
  ret {| sync_success := false; sync_message := "Manual sync not implemented yet" |}.

(** ** soraConfigApi *)

(** The object literal a test returns; [stats] is [None] when the literal
    has no [stats] property. *)
Record TestResult : Type := mkTestResult {
  success : bool;
  message : string;
  stats : option value
}.

(** [soraConfigApi.testConnection], run on the singleton client. *)
Definition testConnection (baseUrl username password : string) : M TestResult :=
  try_catch
    (setBaseUrl baseUrl;;
     let* healthy := checkHealth in
     if negb healthy then
       ret {| success := false; message := "Sora2API 服务不可用"; stats := None |}
     else
       let* loggedIn := login username password in
       if negb loggedIn then
         ret {| success := false; message := "登录失败，请检查用户名和密码"; stats := None |}
       else
         let* stats := getStats in
         ret {| success := true;
                message := "连接成功";
                stats := Some (if truthy stats then stats else VUndefined) |})
    (fun error =>
       ret {| success := false;
              message := "连接失败: " +:+ error_to_string error;
              stats := None |}).

End Client.

Record SoraConfig : Type := mkSoraConfig {
  enabled : bool;
  cfg_baseUrl : string;
  adminUser : string;
  adminPass : string
}.

(** A configuration record as the object it is at run time. *)
Definition config_value (c : SoraConfig) : value :=
  VObj [("enabled", VBool (enabled c));
        ("baseUrl", VStr (cfg_baseUrl c));
        ("adminUser", VStr (adminUser c));
        ("adminPass", VStr (adminPass c))].

Definition default_config : SoraConfig :=
  {| enabled := false;
     cfg_baseUrl := "http://localhost:8000";
     adminUser := "admin";
     adminPass := "admin" |}.

Section Config.

(** [JSON.parse] belongs to the JavaScript runtime, not to the repository:
    it is a parameter, throwing a [SyntaxError] on text that is not JSON. *)
Variable JSON_parse : string -> completion value.

(** [soraConfigApi.getConfig]: the value it resolves to, [VNull] for
    [null]. *)
Definition getConfig : M value :=
  try_catch
    (let* stored := localStorage_getItem "sora_config" in
     match stored with
     | Some text =>
         if truthy (VStr text) then lift (JSON_parse text)
         else ret (config_value default_config)
     | None => ret (config_value default_config)
     end)
    (fun _ => ret VNull).

End Config.

Section Save.

(** [JSON.stringify] belongs to the runtime as well: the text it gives for a
    value, or the [TypeError] it throws on what has no JSON text. *)
Variable JSON_stringify : value -> completion string.

(** Whether the browser refuses, for lack of room, to write [text] under
    [key] into the store: its quota policy is the browser's, not the
    repository's. *)
Variable quota_exceeded : gmap string string -> string -> string -> bool.

(** [localStorage.setItem(key, text)] *)
Definition localStorage_setItem (key text : string) : M unit := fun w =>
  match localStorage w with
  | None => (Throw (mkError "SecurityError" "The operation is insecure."), w)
  | Some store =>
      if quota_exceeded store key text
      then (Throw (mkError "QuotaExceededError" "The quota has been exceeded."), w)
      else (Normal tt,
            {| soraApiClient := soraApiClient w;
               localStorage := Some (<[key := text]> store);
               trace := trace w |})
  end.

(** [soraConfigApi.saveConfig] *)
Definition saveConfig (config : SoraConfig) : M bool :=
  try_catch
    (let* text := lift (JSON_stringify (config_value config)) in
     localStorage_setItem "sora_config" text;;
     ret true)
    (fun _ => ret false).

End Save.

(** ** The page that uses the client (SoraPage.tsx)

    The handlers of the component, over the state its hooks declare.  A
    handler runs over the state of the render that created it and over the
    world; a state setter replaces one field.  The notifications handed to
    the store's [notify] are kept in the order they were given. *)

Module SoraPage.

Inductive Status : Type := idle | testing | connected | error.

Record ConnectionState : Type := mkConnection {
  conn_status : Status;
  conn_message : string
}.

Record Notification : Type := mkNotification {
  note_type : string;
  note_message : string
}.

Record PageState : Type := mkPage {
  st_config : SoraConfig;
  st_loading : bool;
  st_saving : bool;
  st_connection : ConnectionState;
  st_stats : value;
  notified : list Notification
}.

(** The initial values of the [useState] hooks. *)
Definition initial : PageState :=
  {| st_config := default_config;
     st_loading := true;
     st_saving := false;
     st_connection := {| conn_status := idle; conn_message := "" |};
     st_stats := VNull;
     notified := [] |}.

Definition P (A : Type) : Type := PageState -> World -> completion A * PageState * World.

Definition pret {A} (a : A) : P A := fun st w => (Normal a, st, w).

Definition pbind {A B} (m : P A) (k : A -> P B) : P B := fun st w =>
  match m st w with
  | (Normal a, st', w') => k a st' w'
  | (Throw e, st', w') => (Throw e, st', w')
  end.

(** [await] of a call into the services. *)
Definition call {A} (m : M A) : P A := fun st w =>
  match m w with
  | (c, w') => (c, st, w')
  end.

Definition read {A} (f : PageState -> A) : P A := fun st w => (Normal (f st), st, w).

Declare Scope page_scope.
Delimit Scope page_scope with page.
Notation "'let*' x ':=' m 'in' k" := (pbind m (fun x => k))
  (at level 10, x name, m at level 100, k at level 200) : page_scope.
Notation "m ';;' k" := (pbind m (fun _ => k))
  (at level 100, k at level 200, right associativity) : page_scope.
Local Open Scope page_scope.

Definition setConnection (c : ConnectionState) : P unit := fun st w =>
  (Normal tt,
   {| st_config := st_config st; st_loading := st_loading st; st_saving := st_saving st;
      st_connection := c; st_stats := st_stats st; notified := notified st |},
   w).

Definition setStats (s : value) : P unit := fun st w =>
  (Normal tt,
   {| st_config := st_config st; st_loading := st_loading st; st_saving := st_saving st;
      st_connection := st_connection st; st_stats := s; notified := notified st |},
   w).

Definition setSaving (b : bool) : P unit := fun st w =>
  (Normal tt,
   {| st_config := st_config st; st_loading := st_loading st; st_saving := b;
      st_connection := st_connection st; st_stats := st_stats st; notified := notified st |},
   w).

Definition notify (n : Notification) : P unit := fun st w =>
  (Normal tt,
   {| st_config := st_config st; st_loading := st_loading st; st_saving := st_saving st;
      st_connection := st_connection st; st_stats := st_stats st;
      notified := notified st ++ [n] |},
   w).

Definition is_connected (s : Status) : bool :=
  match s with
  | connected => true
  | _ => false
  end.

(** [result.stats]: [undefined] when the result has no such property. *)
Definition result_stats (result : TestResult) : value :=
  default VUndefined (stats result).

Section Handlers.

Variable net : network.
Variable JSON_stringify : value -> completion string.
Variable quota_exceeded : gmap string string -> string -> string -> bool.

(** The callback [testConnection] of the page; the [testConnection] in its
    body is the one of [soraConfigApi]. *)
Definition testConnection (cfg : SoraConfig) : P unit :=
  setConnection {| conn_status := testing; conn_message := "正在连接..." |};;
  let* result := call (testConnection net (cfg_baseUrl cfg) (adminUser cfg) (adminPass cfg)) in
  if success result then
    setConnection {| conn_status := connected; conn_message := message result |};;
    if truthy (result_stats result) then setStats (result_stats result) else pret tt
  else
    setConnection {| conn_status := error; conn_message := message result |};;
    setStats VNull.

(** The handler [saveConfig] of the page; the [saveConfig] in its body is
    the one of [soraConfigApi]. *)
Definition saveConfig : P unit :=
  let* config := read st_config in
  setSaving true;;
  let* success := call (saveConfig JSON_stringify quota_exceeded config) in
  (if success then
     notify {| note_type := "success"; note_message := "配置已保存" |};;
     if enabled config then testConnection config else pret tt
   else
     notify {| note_type := "error"; note_message := "保存配置失败" |});;
  setSaving false.

Definition refreshStats : P unit :=
  let* connection := read st_connection in
  if negb (is_connected (conn_status connection)) then pret tt
  else
    let* newStats := call (getStats net) in
    if truthy newStats then
      setStats newStats;;
      notify {| note_type := "success"; note_message := "统计已刷新" |}
    else pret tt.

End Handlers.

End SoraPage.

(** ** Vocabulary of the statements *)

(** The world after the run appended [evs] to the trace. *)
Definition ran (w : World) (evs : list event) : World :=
  {| soraApiClient := soraApiClient w;
     localStorage := localStorage w;
     trace := trace w ++ evs |}.

Definition with_client (w : World) (c : SoraApiClient) : World :=
  {| soraApiClient := c; localStorage := localStorage w; trace := trace w |}.

Definition fetches (evs : list event) : list Request :=
  omap (fun e => match e with Fetch r => Some r | _ => None end) evs.

Definition invocations (evs : list event) : list method :=
  omap (fun e => match e with Invoke m => Some m | _ => None end) evs.

(** What happened between an earlier world [w] and a later world [w']. *)
Definition since (w w' : World) : list event :=
  drop (length (trace w)) (trace w').

(** The requests issued, and the client methods entered, from [w] to [w']. *)
Definition issued (w w' : World) : list Request := fetches (since w w').
Definition invoked (w w' : World) : list method := invocations (since w w').

Definition contains (needle hay : string) : Prop :=
  exists pre post, hay = pre +:+ needle +:+ post.

(** What [checkHealth] makes of the outcome of its probe. *)
Definition probe_ok (o : fetch_outcome) : bool :=
  match o with
  | Rejected _ => false
  | Responded r => ok r
  end.

(** What [login] makes of the outcome of its request: the token it stores,
    a plain refusal, or an exception it catches and logs. *)
Inductive login_verdict : Type :=
| Accepted (tok : value)
| Refused
| Failed (e : JsError).

Definition judge_body (data : value) : login_verdict :=
  match get_prop data "success" with
  | Throw e => Failed e
  | Normal s =>
      if truthy s then
        match get_prop data "token" with
        | Throw e => Failed e
        | Normal t => if truthy t then Accepted t else Refused
        end
      else Refused
  end.

Definition judge (o : fetch_outcome) : login_verdict :=
  match o with
  | Rejected e => Failed e
  | Responded r =>
      match json r with
      | Throw e => Failed e
      | Normal data => judge_body data
      end
  end.

(** [data.k] can be read and is truthy. *)
Definition field_truthy (data : value) (k : string) : Prop :=
  exists v, get_prop data k = Normal v /\ truthy v = true.

(** ** Concrete worlds and networks *)

Definition fresh_world : World :=
  {| soraApiClient := new_SoraApiClient; localStorage := Some ∅; trace := [] |}.

(** A page that logged in at [http://x] earlier and holds the token [t]. *)
Definition logged_in_world : World :=
  {| soraApiClient := {| baseUrl := "http://x"; token := VStr "t" |};
     localStorage := Some ∅;
     trace := [] |}.

Definition unreachable : network :=
  fun _ _ => Rejected (mkError "TypeError" "Failed to fetch").

Definition sample_stats : value :=
  VObj [("total_tokens", VNum 3); ("active_tokens", VNum 2);
        ("total_images", VNum 10); ("total_videos", VNum 4);
        ("today_images", VNum 1); ("today_videos", VNum 0)].

(** A service that answers every request with status 200 and, as body,
    [login_body] at [/api/login] and [stats_body] elsewhere. *)
Definition service (login_body stats_body : completion value) : network :=
  fun _ r =>
    Responded {| ok := true;
                 json := if String.eqb (req_url r) "http://x/api/login"
                         then login_body else stats_body |}.

(** A service whose [/api/stats] answers 500 after a good login. *)
Definition service_without_stats : network :=
  fun _ r =>
    if String.eqb (req_url r) "http://x/api/stats"
    then Responded {| ok := false; json := Throw (mkError "SyntaxError" "Unexpected end of JSON input") |}
    else Responded {| ok := true;
                      json := Normal (VObj [("success", VBool true); ("token", VStr "tok")]) |}.

(** [logged_in_world] once [setBaseUrl] pointed the client at [http://y]. *)
Definition moved_world : World := (setBaseUrl "http://y" logged_in_world).2.

(** The request [getStats] issues from a client at [base] that holds the
    truthy token [tok]. *)
Definition stats_request (base : string) (tok : value) : Request :=
  {| req_url := base +:+ "/api/stats";
     req_method := None;
     req_headers := [("Content-Type", Lit "application/json"); ("Authorization", Bearer tok)];
     req_body := None;
     req_timeout := None |}.

(** The read of the stored configuration fails: access to the storage
    throws, or [JSON.parse] throws on the stored text. *)
Definition read_fails (JSON_parse : string -> completion value) (w : World) : Prop :=
  localStorage w = None
  \/ exists store text e,
       localStorage w = Some store
       /\ store !! "sora_config" = Some text
       /\ JSON_parse text = Throw e.

(** [JSON.parse] on the three literal texts [null], [true] and [false].  It
    stands for the runtime's parser in the example below, which parses the
    text [null] and no other. *)
Definition JSON_parse_literal (text : string) : completion value :=
  if String.eqb text "null" then Normal VNull
  else if String.eqb text "true" then Normal (VBool true)
  else if String.eqb text "false" then Normal (VBool false)
  else Throw (mkError "SyntaxError" "Unexpected token").

(** A storage whose configuration entry holds the JSON text [null]. *)
Definition null_stored_world : World :=
  {| soraApiClient := new_SoraApiClient;
     localStorage := Some {[ "sora_config" := "null" ]};
     trace := [] |}.

(** The world with [store] as the content of [localStorage]. *)
Definition with_storage (w : World) (store : gmap string string) : World :=
  {| soraApiClient := soraApiClient w; localStorage := Some store; trace := trace w |}.

(** The errors handed to [console.error]. *)
Definition console_errors (evs : list event) : list JsError :=
  omap (fun e => match e with ConsoleError _ err => Some err | _ => None end) evs.
Definition logged (w w' : World) : list JsError := console_errors (since w w').

(** The outcome of the request [login] sends from [w]. *)
Definition login_outcome (net : network) (username password : string) (w : World)
  : fetch_outcome :=
  net (trace w ++ [Invoke MLogin])
    (login_request (baseUrl (soraApiClient w)) username password).

(** The outcome of the request [request] that [getStats] or [getTokens]
    (entered as [m]) sends from [w]. *)
Definition authed_outcome (net : network) (m : method) (request : Request) (w : World)
  : fetch_outcome :=
  net (trace w ++ [Invoke m]) request.

(** The token is held and has a string: the bearer header can be built. *)
Definition usable (tok : value) : bool :=
  truthy tok && negb (to_string_throws tok).

(** The request [getTokens] issues from a client at [base] that holds the
    truthy token [tok]. *)
Definition tokens_request (base : string) (tok : value) : Request :=
  {| req_url := base +:+ "/api/tokens";
     req_method := None;
     req_headers := [("Content-Type", Lit "application/json"); ("Authorization", Bearer tok)];
     req_body := None;
     req_timeout := None |}.

(** The three results [testConnection] builds outside its handler. *)
Definition result_unavailable : TestResult :=
  {| success := false; message := "Sora2API 服务不可用"; stats := None |}.
Definition result_login_failed : TestResult :=
  {| success := false; message := "登录失败，请检查用户名和密码"; stats := None |}.
Definition result_connected (s : value) : TestResult :=
  {| success := true;
     message := "连接成功";
     stats := Some (if truthy s then s else VUndefined) |}.

(** The same network, with the [ok] flag of every response inverted. *)
Definition flip_status (net : network) : network :=
  fun history r =>
    match net history r with
    | Rejected e => Rejected e
    | Responded resp => Responded {| ok := negb (ok resp); json := json resp |}
    end.

(** A service that accepts every login with the token [tok] and serves
    [sample_stats] and an empty token list. *)
Definition open_service : network :=
  fun _ r =>
    Responded {| ok := true;
                 json := if String.eqb (req_url r) "http://x/api/login"
                         then Normal (VObj [("success", VBool true); ("token", VStr "tok")])
                         else if String.eqb (req_url r) "http://x/api/tokens"
                              then Normal (VArr [])
                              else Normal sample_stats |}.

(** After a good login, a service that refuses every further login. *)
Definition service_then_refusing : network :=
  fun history r =>
    if decide (length (fetches history) = 0)
    then open_service history r
    else Responded {| ok := true;
                      json := if String.eqb (req_url r) "http://x/api/login"
                              then Normal (VObj [("success", VBool false)])
                              else Normal sample_stats |}.

(** A client whose login was answered with an object as token, one that
    has a property [toString]. *)
Definition odd_token : value := VObj [("toString", VNum 1)].

Definition odd_token_world : World :=
  {| soraApiClient := {| baseUrl := "http://x"; token := odd_token |};
     localStorage := Some ∅;
     trace := [] |}.

(** A service that accepts every login and hands out [odd_token]. *)
Definition odd_service : network :=
  fun _ r =>
    Responded {| ok := true;
                 json := if String.eqb (req_url r) "http://x/api/login"
                         then Normal (VObj [("success", VBool true); ("token", odd_token)])
                         else Normal sample_stats |}.

(** A client pointed at [http://x] that never logged in. *)
Definition pointed_world : World :=
  {| soraApiClient := {| baseUrl := "http://x"; token := VNull |};
     localStorage := Some ∅;
     trace := [] |}.

(** Stand-ins for [JSON.stringify] and [JSON.parse] in the examples: the
    text of a configuration record whose strings need no escape, and the
    reading back of the text of one given record. *)
Definition quoted (s : string) : string :=
  String "034"%char (s +:+ String "034"%char EmptyString).

Definition config_text (c : SoraConfig) : string :=
  "{" +:+ quoted "enabled" +:+ ":" +:+ (if enabled c then "true" else "false")
  +:+ "," +:+ quoted "baseUrl" +:+ ":" +:+ quoted (cfg_baseUrl c)
  +:+ "," +:+ quoted "adminUser" +:+ ":" +:+ quoted (adminUser c)
  +:+ "," +:+ quoted "adminPass" +:+ ":" +:+ quoted (adminPass c) +:+ "}".

Definition stringify_config (v : value) : completion string :=
  match v with
  | VObj [("enabled", VBool e); ("baseUrl", VStr u); ("adminUser", VStr a); ("adminPass", VStr p)] =>
      Normal (config_text (mkSoraConfig e u a p))
  | _ => Throw (mkError "TypeError" "not a configuration record")
  end.

Definition parse_config (c : SoraConfig) (text : string) : completion value :=
  if String.eqb text (config_text c)
  then Normal (config_value c)
  else JSON_parse_literal text.

(** A configuration that enables the integration at [http://x]. *)
Definition enabled_config : SoraConfig :=
  {| enabled := true;
     cfg_baseUrl := "http://x/";
     adminUser := "admin";
     adminPass := "admin" |}.

Definition roomy : gmap string string -> string -> string -> bool :=
  fun _ _ _ => false.

(** The page state with another configuration, as the form fields and the
    loaded configuration set it, and with another loading flag. *)
Definition with_config (st : SoraPage.PageState) (c : SoraConfig) : SoraPage.PageState :=
  {| SoraPage.st_config := c;
     SoraPage.st_loading := SoraPage.st_loading st;
     SoraPage.st_saving := SoraPage.st_saving st;
     SoraPage.st_connection := SoraPage.st_connection st;
     SoraPage.st_stats := SoraPage.st_stats st;
     SoraPage.notified := SoraPage.notified st |}.

Definition with_loading (st : SoraPage.PageState) (b : bool) : SoraPage.PageState :=
  {| SoraPage.st_config := SoraPage.st_config st;
     SoraPage.st_loading := b;
     SoraPage.st_saving := SoraPage.st_saving st;
     SoraPage.st_connection := SoraPage.st_connection st;
     SoraPage.st_stats := SoraPage.st_stats st;
     SoraPage.notified := SoraPage.notified st |}.

(** One thing the page does to its state and to the world: a change of the
    configuration or of the loading flag, or a completed run of one of its
    handlers. *)
Inductive page_step (net : network) (JSON_stringify : value -> completion string)
    (quota_exceeded : gmap string string -> string -> string -> bool)
  : SoraPage.PageState * World -> SoraPage.PageState * World -> Prop :=
| step_setConfig st w c :
    page_step net JSON_stringify quota_exceeded (st, w) (with_config st c, w)
| step_setLoading st w b :
    page_step net JSON_stringify quota_exceeded (st, w) (with_loading st b, w)
| step_testConnection st w cfg st' w' :
    SoraPage.testConnection net cfg st w = (Normal tt, st', w') ->
    page_step net JSON_stringify quota_exceeded (st, w) (st', w')
| step_saveConfig st w st' w' :
    SoraPage.saveConfig net JSON_stringify quota_exceeded st w = (Normal tt, st', w') ->
    page_step net JSON_stringify quota_exceeded (st, w) (st', w')
| step_refreshStats st w st' w' :
    SoraPage.refreshStats net st w = (Normal tt, st', w') ->
    page_step net JSON_stringify quota_exceeded (st, w) (st', w').

(** * Properties *)

(** ** The trace *)

Lemma ran_ran w evs evs' : ran (ran w evs) evs' = ran w (evs ++ evs').
Proof. unfold ran; cbn. by rewrite <- app_assoc. Qed.

Lemma since_ran w evs : since w (ran w evs) = evs.
Proof. unfold since, ran; cbn. apply drop_app_length. Qed.

Lemma since_with_client w evs c : since w (with_client (ran w evs) c) = evs.
Proof. unfold since, with_client, ran; cbn. apply drop_app_length. Qed.

Lemma contains_intro pre needle post : contains needle (pre +:+ needle +:+ post).
Proof. by exists pre, post. Qed.

(** ** The trailing slash *)

Lemma append_cons c s t : String c s +:+ t = String c (s +:+ t).
Proof. reflexivity. Qed.

Lemma replace_trailing_slash_cons c c' rest :
  replace_trailing_slash (String c (String c' rest))
  = String c (replace_trailing_slash (String c' rest)).
Proof. reflexivity. Qed.

Lemma replace_trailing_slash_app s : replace_trailing_slash (s +:+ "/") = s.
Proof.
  induction s as [|c s IH]; [done|].
  destruct s as [|c' s']; [done|].
  rewrite !append_cons in *. by rewrite replace_trailing_slash_cons, IH.
Qed.

Lemma replace_trailing_slash_cases url :
  url = replace_trailing_slash url +:+ "/"
  \/ (replace_trailing_slash url = url /\ forall s, url <> s +:+ "/").
Proof.
  induction url as [|c url IH].
  - right. split; [done|]. intros [|? ?]; discriminate.
  - destruct url as [|c' url'].
    + cbn. destruct (Ascii.eqb_spec c "/") as [->|Hc].
      * by left.
      * right. split; [done|].
        intros [|c0 [|? ?]] [=]; subst; try done.
    + destruct IH as [IH|[IH Hno]].
      * left. rewrite replace_trailing_slash_cons, append_cons.
        by rewrite <- IH.
      * right. rewrite replace_trailing_slash_cons.
        split; [by rewrite IH|].
        intros [|c0 s] [=]; subst. by apply (Hno s).
Qed.

(** ** One step of each method *)

Section Steps.

Variable net : network.

Lemma setBaseUrl_run url w :
  setBaseUrl url w
  = (Normal tt,
     with_client (ran w [Invoke MSetBaseUrl])
       {| baseUrl := replace_trailing_slash url; token := token (soraApiClient w) |}).
Proof. reflexivity. Qed.

Lemma checkHealth_run w :
  let probe := health_request (baseUrl (soraApiClient w)) in
  checkHealth net w
  = (Normal (probe_ok (net (trace w ++ [Invoke MCheckHealth]) probe)),
     ran w [Invoke MCheckHealth; Fetch probe]).
Proof.
  cbn zeta. unfold checkHealth, try_catch, bind, fetch, ran; cbn.
  destruct (net _ _); cbn; by rewrite <- app_assoc.
Qed.

Lemma login_run username password w :
  let request := login_request (baseUrl (soraApiClient w)) username password in
  let w' := ran w [Invoke MLogin; Fetch request] in
  login net username password w
  = match judge (net (trace w ++ [Invoke MLogin]) request) with
    | Accepted tok =>
        (Normal true,
         with_client w' {| baseUrl := baseUrl (soraApiClient w); token := tok |})
    | Refused => (Normal false, w')
    | Failed e => (Normal false, ran w' [ConsoleError "Sora2API login failed:" e])
    end.
Proof.
  cbn zeta. unfold login, try_catch, bind, fetch, judge, judge_body, ran, with_client; cbn.
  destruct (net _ _) as [e|r]; cbn; [by rewrite <- !app_assoc|].
  destruct (json r) as [data|e]; cbn; [|by rewrite <- !app_assoc].
  destruct (get_prop data "success") as [s|e]; cbn; [|by rewrite <- !app_assoc].
  destruct (truthy s); cbn; [|by rewrite <- !app_assoc].
  destruct (get_prop data "token") as [t|e]; cbn; [|by rewrite <- !app_assoc].
  destruct (truthy t); cbn; by rewrite <- !app_assoc.
Qed.

Lemma getStats_run w :
  let request := stats_request (baseUrl (soraApiClient w)) (token (soraApiClient w)) in
  getStats net w
  = if usable (token (soraApiClient w)) then
      (Normal match net (trace w ++ [Invoke MGetStats]) request with
              | Rejected _ => VNull
              | Responded r =>
                  if ok r then match json r with Normal v => v | Throw _ => VNull end
                  else VNull
              end,
       ran w [Invoke MGetStats; Fetch request])
    else (Normal VNull, ran w [Invoke MGetStats]).
Proof.
  cbn zeta.
  unfold getStats, getHeaders, usable, stats_request, authed_request, try_catch, bind,
    fetch, lift, ran; cbn.
  destruct (truthy (token (soraApiClient w))) eqn:Htruthy; cbn; [|done].
  rewrite Htruthy.
  destruct (to_string_throws (token (soraApiClient w))); cbn; [done|].
  destruct (net _ _) as [e|r]; cbn; [by rewrite <- !app_assoc|].
  destruct (ok r); cbn; [|by rewrite <- !app_assoc].
  destruct (json r); cbn; by rewrite <- !app_assoc.
Qed.

Lemma getTokens_run w :
  let request := tokens_request (baseUrl (soraApiClient w)) (token (soraApiClient w)) in
  getTokens net w
  = if usable (token (soraApiClient w)) then
      (Normal match net (trace w ++ [Invoke MGetTokens]) request with
              | Rejected _ => VArr []
              | Responded r =>
                  if ok r then match json r with Normal v => v | Throw _ => VArr [] end
                  else VArr []
              end,
       ran w [Invoke MGetTokens; Fetch request])
    else (Normal (VArr []), ran w [Invoke MGetTokens]).
Proof.
  cbn zeta.
  unfold getTokens, getHeaders, usable, tokens_request, authed_request, try_catch, bind,
    fetch, lift, ran; cbn.
  destruct (truthy (token (soraApiClient w))) eqn:Htruthy; cbn; [|done].
  rewrite Htruthy.
  destruct (to_string_throws (token (soraApiClient w))); cbn; [done|].
  destruct (net _ _) as [e|r]; cbn; [by rewrite <- !app_assoc|].
  destruct (ok r); cbn; [|by rewrite <- !app_assoc].
  destruct (json r); cbn; by rewrite <- !app_assoc.
Qed.

End Steps.

(** ** Sequencing *)

Lemma bind_normal {A B} (m : M A) (k : A -> M B) w a w' :
  m w = (Normal a, w') -> bind m k w = k a w'.
Proof. unfold bind. by intros ->. Qed.

Lemma try_catch_normal {A} (body : M A) (handler : JsError -> M A) w a w' :
  body w = (Normal a, w') -> try_catch body handler w = (Normal a, w').
Proof. unfold try_catch. by intros ->. Qed.

Ltac step H := erewrite bind_normal by exact H; cbn [negb].

(** Reads the events between two worlds off the trace. *)
Ltac read_trace :=
  unfold issued, invoked, since, with_client, ran; cbn [trace];
  rewrite <- ?app_assoc, drop_app_length; cbn.

(** Closes [m ∉ ms] for a list of methods given in full. *)
Ltac not_entered :=
  repeat (apply not_elem_of_cons; split; [discriminate|]); apply not_elem_of_nil.

(** ** setBaseUrl *)

(** C6. For every URL, [setBaseUrl] stores the URL with its one trailing
    slash removed when it ends in a slash, and unchanged otherwise; the
    session credential is left as it was.  So [http://x/] is stored as
    [http://x] and [http://x//] as [http://x/]. *)
Theorem setBaseUrl_strips_one_trailing_slash :
  (forall url w, exists w',
      setBaseUrl url w = (Normal tt, w')
      /\ token (soraApiClient w') = token (soraApiClient w)
      /\ (url = baseUrl (soraApiClient w') +:+ "/"
          \/ (baseUrl (soraApiClient w') = url /\ forall s, url <> s +:+ "/")))
  /\ (forall s w, baseUrl (soraApiClient (setBaseUrl (s +:+ "/") w).2) = s)
  /\ baseUrl (soraApiClient (setBaseUrl "http://x/" fresh_world).2) = "http://x"
  /\ baseUrl (soraApiClient (setBaseUrl "http://x//" fresh_world).2) = "http://x/".
Proof.
  repeat split; try reflexivity.
  - intros url w. eexists. rewrite setBaseUrl_run. split; [reflexivity|].
    split; [reflexivity|]. cbn. apply replace_trailing_slash_cases.
  - intros s w. rewrite setBaseUrl_run. cbn. apply replace_trailing_slash_app.
Qed.

(** ** getStats and getTokens without a credential *)

(** C4. While the token is [null], [getStats] returns [null] and
    [getTokens] returns the empty array, and neither issues a request (nor
    touches the client). *)
Theorem no_credential_no_request net w :
  token (soraApiClient w) = VNull ->
  (exists w', getStats net w = (Normal VNull, w')
              /\ issued w w' = [] /\ soraApiClient w' = soraApiClient w)
  /\ (exists w', getTokens net w = (Normal (VArr []), w')
                 /\ issued w w' = [] /\ soraApiClient w' = soraApiClient w).
Proof.
  intros Htok. split; eexists.
  - rewrite getStats_run, Htok. cbn. split; [reflexivity|]. split; [|done].
    by read_trace.
  - rewrite getTokens_run, Htok. cbn. split; [reflexivity|]. split; [|done].
    by read_trace.
Qed.

Lemma no_credential_no_request_witness :
  token (soraApiClient fresh_world) = VNull
  /\ (exists w', getStats (service (Normal VNull) (Normal sample_stats)) fresh_world
                 = (Normal VNull, w')
                 /\ issued fresh_world w' = []
                 /\ soraApiClient w' = soraApiClient fresh_world)
  /\ (exists w', getTokens (service (Normal VNull) (Normal sample_stats)) fresh_world
                 = (Normal (VArr []), w')
                 /\ issued fresh_world w' = []
                 /\ soraApiClient w' = soraApiClient fresh_world).
Proof.
  split; [reflexivity|].
  apply (no_credential_no_request _ fresh_world). reflexivity.
Defined.

(** ** testConnection *)

(** C1. When the health probe fails, [testConnection] answers
    [success: false] with a message containing "不可用"; the probe is the
    only request issued, and neither [login] nor [getStats] is entered. *)
Theorem testConnection_service_unavailable net url username password w w1 w2 :
  setBaseUrl url w = (Normal tt, w1) ->
  checkHealth net w1 = (Normal false, w2) ->
  exists r,
    testConnection net url username password w = (Normal r, w2)
    /\ success r = false
    /\ contains "不可用" (message r)
    /\ issued w w2 = [health_request (replace_trailing_slash url)]
    /\ (MLogin ∉ invoked w w2)
    /\ (MGetStats ∉ invoked w w2).
Proof.
  intros Hset Hhealth. eexists. split.
  { unfold testConnection. apply try_catch_normal.
    step Hset. step Hhealth. reflexivity. }
  rewrite setBaseUrl_run in Hset. injection Hset as <-.
  rewrite checkHealth_run in Hhealth. injection Hhealth as _ <-.
  split; [done|]. split; [by exists "Sora2API 服务", ""|].
  read_trace. split; [done|]. split; not_entered.
Qed.

Lemma testConnection_service_unavailable_witness :
  exists w1 w2,
    setBaseUrl "http://x/" fresh_world = (Normal tt, w1)
    /\ checkHealth unreachable w1 = (Normal false, w2)
    /\ exists r,
        testConnection unreachable "http://x/" "admin" "admin" fresh_world = (Normal r, w2)
        /\ success r = false
        /\ contains "不可用" (message r)
        /\ issued fresh_world w2 = [health_request (replace_trailing_slash "http://x/")]
        /\ (MLogin ∉ invoked fresh_world w2)
        /\ (MGetStats ∉ invoked fresh_world w2).
Proof.
  eexists _, _. split; [reflexivity|]. split; [reflexivity|].
  eapply (testConnection_service_unavailable unreachable "http://x/" "admin" "admin" fresh_world);
    reflexivity.
Defined.

(** C2. When the health probe succeeds and [login] returns false,
    [testConnection] answers [success: false] with a message containing
    "登录失败" and no [stats] property; the probe and the login request are
    the only requests issued, and [getStats] is not entered. *)
Theorem testConnection_login_failed net url username password w w1 w2 w3 :
  setBaseUrl url w = (Normal tt, w1) ->
  checkHealth net w1 = (Normal true, w2) ->
  login net username password w2 = (Normal false, w3) ->
  exists r,
    testConnection net url username password w = (Normal r, w3)
    /\ success r = false
    /\ contains "登录失败" (message r)
    /\ stats r = None
    /\ issued w w3 = [health_request (replace_trailing_slash url);
                      login_request (replace_trailing_slash url) username password]
    /\ (MGetStats ∉ invoked w w3).
Proof.
  intros Hset Hhealth Hlogin. eexists. split.
  { unfold testConnection. apply try_catch_normal.
    step Hset. step Hhealth. step Hlogin. reflexivity. }
  rewrite setBaseUrl_run in Hset. injection Hset as <-.
  rewrite checkHealth_run in Hhealth. injection Hhealth as _ <-.
  rewrite login_run in Hlogin.
  split; [done|]. split; [by exists "", "，请检查用户名和密码"|]. split; [done|].
  destruct (judge _); [discriminate Hlogin| |];
    injection Hlogin as <-; read_trace; (split; [done|not_entered]).
Qed.

Lemma testConnection_login_failed_witness :
  exists w1 w2 w3,
    setBaseUrl "http://x/" fresh_world = (Normal tt, w1)
    /\ checkHealth (service (Normal (VObj [("success", VBool false)])) (Normal sample_stats)) w1
       = (Normal true, w2)
    /\ login (service (Normal (VObj [("success", VBool false)])) (Normal sample_stats))
         "admin" "wrong" w2
       = (Normal false, w3)
    /\ exists r,
        testConnection (service (Normal (VObj [("success", VBool false)])) (Normal sample_stats))
          "http://x/" "admin" "wrong" fresh_world
        = (Normal r, w3)
        /\ success r = false
        /\ contains "登录失败" (message r)
        /\ stats r = None
        /\ issued fresh_world w3
           = [health_request (replace_trailing_slash "http://x/");
              login_request (replace_trailing_slash "http://x/") "admin" "wrong"]
        /\ (MGetStats ∉ invoked fresh_world w3).
Proof.
  eexists _, _, _. split; [reflexivity|]. split; [reflexivity|]. split; [reflexivity|].
  eapply (testConnection_login_failed _ "http://x/" "admin" "wrong" fresh_world);
    reflexivity.
Defined.

(** C3. When the health probe and [login] both succeed, [testConnection]
    answers [success: true] whatever [getStats] returns; when [getStats]
    returns [null] the [stats] property is [undefined]. *)
Theorem testConnection_stats_best_effort net url username password w w1 w2 w3 :
  setBaseUrl url w = (Normal tt, w1) ->
  checkHealth net w1 = (Normal true, w2) ->
  login net username password w2 = (Normal true, w3) ->
  exists s w4 r,
    getStats net w3 = (Normal s, w4)
    /\ testConnection net url username password w = (Normal r, w4)
    /\ success r = true
    /\ stats r = Some (if truthy s then s else VUndefined)
    /\ (s = VNull -> stats r = Some VUndefined).
Proof.
  intros Hset Hhealth Hlogin.
  assert (exists s w4, getStats net w3 = (Normal s, w4)) as (s & w4 & Hstats).
  { rewrite getStats_run. destruct (usable _); eauto. }
  exists s, w4. eexists. split; [exact Hstats|]. split.
  { unfold testConnection. apply try_catch_normal.
    step Hset. step Hhealth. step Hlogin. step Hstats. reflexivity. }
  cbn. split; [done|]. split; [done|]. by intros ->.
Qed.

Lemma testConnection_stats_best_effort_witness :
  exists w1 w2 w3,
    setBaseUrl "http://x/" fresh_world = (Normal tt, w1)
    /\ checkHealth service_without_stats w1 = (Normal true, w2)
    /\ login service_without_stats "admin" "admin" w2 = (Normal true, w3)
    /\ exists s w4 r,
        getStats service_without_stats w3 = (Normal s, w4)
        /\ testConnection service_without_stats "http://x/" "admin" "admin" fresh_world
           = (Normal r, w4)
        /\ success r = true
        /\ stats r = Some (if truthy s then s else VUndefined)
        /\ (s = VNull -> stats r = Some VUndefined).
Proof.
  eexists _, _, _. split; [reflexivity|]. split; [reflexivity|]. split; [reflexivity|].
  eapply (testConnection_stats_best_effort _ "http://x/" "admin" "admin" fresh_world);
    reflexivity.
Defined.

(** ** login *)

Lemma judge_body_accepted data tok :
  judge_body data = Accepted tok
  <-> field_truthy data "success"
      /\ get_prop data "token" = Normal tok /\ truthy tok = true.
Proof.
  unfold judge_body, field_truthy. split.
  - destruct (get_prop data "success") as [s|e]; [|done].
    destruct (truthy s) eqn:Hs; [|done].
    destruct (get_prop data "token") as [t|e]; [|done].
    destruct (truthy t) eqn:Ht; [|done].
    intros [= <-]. eauto.
  - intros [(s & -> & ->) [-> ->]]. done.
Qed.

Lemma judge_body_accepts data :
  (exists tok, judge_body data = Accepted tok)
  <-> field_truthy data "success" /\ field_truthy data "token".
Proof.
  split.
  - intros [tok (Hs & Ht & Htok)%judge_body_accepted]. split; [done|by exists tok].
  - intros [Hs (tok & Ht & Htok)]. exists tok. by apply judge_body_accepted.
Qed.

(** C5. A [login] always returns a boolean.  When it returns false the
    client, and so the stored credential, is exactly as before; the
    credential differs afterwards only when [login] returned true.  It
    returns false when the request is rejected (network failure), when the
    body is not JSON (malformed payload), and when the body does not carry a
    truthy [success] together with a truthy [token] (non-success
    response). *)
Theorem login_failure_keeps_credential net username password w :
  exists b w',
    login net username password w = (Normal b, w')
    /\ (b = false -> soraApiClient w' = soraApiClient w)
    /\ (token (soraApiClient w') <> token (soraApiClient w) -> b = true)
    /\ (forall e,
          net (trace w ++ [Invoke MLogin])
            (login_request (baseUrl (soraApiClient w)) username password) = Rejected e ->
          b = false)
    /\ (forall r e,
          net (trace w ++ [Invoke MLogin])
            (login_request (baseUrl (soraApiClient w)) username password) = Responded r ->
          json r = Throw e ->
          b = false)
    /\ (forall r data,
          net (trace w ++ [Invoke MLogin])
            (login_request (baseUrl (soraApiClient w)) username password) = Responded r ->
          json r = Normal data ->
          ~ (field_truthy data "success" /\ field_truthy data "token") ->
          b = false).
Proof.
  rewrite login_run. cbn zeta.
  destruct (judge _) as [tok| |e] eqn:Hjudge; eexists _, _; (split; [reflexivity|]).
  - split; [done|]. split; [done|]. unfold judge in Hjudge. repeat split.
    + intros e He. by rewrite He in Hjudge.
    + intros r e Hr He. by rewrite Hr, He in Hjudge.
    + intros r data Hr Hdata Hno. rewrite Hr, Hdata in Hjudge.
      destruct Hno. apply judge_body_accepts. by exists tok.
  - cbn. repeat split; done.
  - cbn. repeat split; done.
Qed.

(** C10. When the body of the login response parses as JSON, [login]
    returns true exactly when the body's [success] and [token] are both
    truthy; it then stores the body's [token], and otherwise leaves the
    stored token as it was.  With [success: true] and the empty string as
    [token] it returns false and stores nothing. *)
Theorem login_accepts_iff_success_and_token net username password w r data :
  net (trace w ++ [Invoke MLogin])
    (login_request (baseUrl (soraApiClient w)) username password) = Responded r ->
  json r = Normal data ->
  exists b w',
    login net username password w = (Normal b, w')
    /\ (b = true <-> field_truthy data "success" /\ field_truthy data "token")
    /\ (b = true -> get_prop data "token" = Normal (token (soraApiClient w')))
    /\ (b = false -> token (soraApiClient w') = token (soraApiClient w))
    /\ (data = VObj [("success", VBool true); ("token", VStr "")] ->
        b = false /\ token (soraApiClient w') = token (soraApiClient w)).
Proof.
  intros Hr Hdata. rewrite login_run. cbn zeta. unfold judge. rewrite Hr, Hdata.
  destruct (judge_body data) as [tok| |e] eqn:Hjudge; eexists _, _; (split; [reflexivity|]).
  - pose proof Hjudge as (Hs & Ht & Htok)%judge_body_accepted.
    split; [split; [intros _; split; [done|by exists tok]|done]|].
    split; [done|]. split; [done|].
    intros ->. discriminate Hjudge.
  - assert (~ (field_truthy data "success" /\ field_truthy data "token")) as Hno.
    { intros [tok Htok]%judge_body_accepts. by rewrite Htok in Hjudge. }
    cbn. split; [split; [done|by intros ?]|]. done.
  - assert (~ (field_truthy data "success" /\ field_truthy data "token")) as Hno.
    { intros [tok Htok]%judge_body_accepts. by rewrite Htok in Hjudge. }
    cbn. split; [split; [done|by intros ?]|]. done.
Qed.

Lemma login_accepts_iff_success_and_token_witness :
  exists r data,
    service (Normal (VObj [("success", VBool true); ("token", VStr "")])) (Normal sample_stats)
      (trace logged_in_world ++ [Invoke MLogin])
      (login_request (baseUrl (soraApiClient logged_in_world)) "admin" "admin")
    = Responded r
    /\ json r = Normal data
    /\ exists b w',
        login (service (Normal (VObj [("success", VBool true); ("token", VStr "")]))
                 (Normal sample_stats)) "admin" "admin" logged_in_world
        = (Normal b, w')
        /\ (b = true <-> field_truthy data "success" /\ field_truthy data "token")
        /\ (b = true -> get_prop data "token" = Normal (token (soraApiClient w')))
        /\ (b = false -> token (soraApiClient w') = token (soraApiClient logged_in_world))
        /\ (data = VObj [("success", VBool true); ("token", VStr "")] ->
            b = false /\ token (soraApiClient w') = token (soraApiClient logged_in_world)).
Proof.
  eexists _, _. split; [reflexivity|]. split; [reflexivity|].
  eapply (login_accepts_iff_success_and_token _ "admin" "admin" logged_in_world);
    reflexivity.
Defined.

(** ** The credential across a change of base URL *)

Lemma usable_string s : s <> "" -> usable (VStr s) = true.
Proof.
  intros Hne. unfold usable; cbn. by destruct (String.eqb_spec s "").
Qed.

Lemma getStats_issued net w :
  issued w (getStats net w).2
  = if usable (token (soraApiClient w))
    then [stats_request (baseUrl (soraApiClient w)) (token (soraApiClient w))]
    else [].
Proof.
  rewrite getStats_run. cbn zeta. unfold issued.
  destruct (usable _); cbn [snd]; by rewrite since_ran.
Qed.

Lemma getStats_issues net w :
  usable (token (soraApiClient w)) = true ->
  issued w (getStats net w).2
  = [stats_request (baseUrl (soraApiClient w)) (token (soraApiClient w))].
Proof. intros Htok. by rewrite getStats_issued, Htok. Qed.

(** C7, as the code has it.  [setBaseUrl] never touches the credential:
    after it the token is the one held before.  When that token is truthy
    and has a string, as every string token has, the next [getStats] issues
    its request, at the new base URL and authorised with the old token. *)
Theorem setBaseUrl_credential_survives net url w :
  token (soraApiClient (setBaseUrl url w).2) = token (soraApiClient w)
  /\ (truthy (token (soraApiClient w)) = true ->
      to_string_throws (token (soraApiClient w)) = false ->
      issued (setBaseUrl url w).2 (getStats net (setBaseUrl url w).2).2
      = [stats_request (replace_trailing_slash url) (token (soraApiClient w))])
  /\ (forall s,
        token (soraApiClient w) = VStr s -> s <> "" ->
        issued (setBaseUrl url w).2 (getStats net (setBaseUrl url w).2).2
        = [stats_request (replace_trailing_slash url) (VStr s)]).
Proof.
  rewrite setBaseUrl_run. cbn [snd]. split; [done|]. split.
  - intros Htruthy Hstring. rewrite getStats_issues; [done|].
    unfold usable; cbn. by rewrite Htruthy, Hstring.
  - intros s Htok Hne. rewrite getStats_issues; cbn; rewrite Htok; [done|].
    by apply usable_string.
Qed.

(** C7 fails on the code.  The client logged in at [http://x] holds the
    token [t]; [setBaseUrl("http://y")] changes the base URL and keeps the
    token, and the next [getStats] sends the token to [http://y] and returns
    the statistics, where a client without credential returns [null] and
    sends nothing. *)
Lemma setBaseUrl_does_not_invalidate :
  truthy (token (soraApiClient logged_in_world)) = true
  /\ baseUrl (soraApiClient logged_in_world) = "http://x"
  /\ baseUrl (soraApiClient moved_world) = "http://y"
  /\ token (soraApiClient moved_world) = VStr "t"
  /\ (getStats (service (Normal VNull) (Normal sample_stats)) moved_world).1
     = Normal sample_stats
  /\ issued moved_world (getStats (service (Normal VNull) (Normal sample_stats)) moved_world).2
     = [stats_request "http://y" (VStr "t")]
  /\ (getStats (service (Normal VNull) (Normal sample_stats))
        (with_client moved_world {| baseUrl := "http://y"; token := VNull |})).1
     = Normal VNull
  /\ issued (with_client moved_world {| baseUrl := "http://y"; token := VNull |})
       (getStats (service (Normal VNull) (Normal sample_stats))
          (with_client moved_world {| baseUrl := "http://y"; token := VNull |})).2
     = [].
Proof. repeat split; reflexivity. Qed.

(** ** getConfig *)

Lemma getConfig_run JSON_parse w :
  getConfig JSON_parse w
  = (Normal match localStorage w with
            | None => VNull
            | Some store =>
                match store !! "sora_config" with
                | None => config_value default_config
                | Some text =>
                    if String.eqb text "" then config_value default_config
                    else match JSON_parse text with
                         | Normal v => v
                         | Throw _ => VNull
                         end
                end
            end,
     w).
Proof.
  unfold getConfig, try_catch, bind, localStorage_getItem, lift, ret.
  destruct (localStorage w) as [store|]; [|done].
  destruct (store !! "sora_config") as [text|]; [|done].
  cbn. destruct (String.eqb text ""); cbn; [done|].
  by destruct (JSON_parse text).
Qed.

(** C8, as the code has it.  With nothing stored under [sora_config],
    [getConfig] returns the default record, which is not [null].  It returns
    [null] exactly when access to the storage throws, or the stored text is
    not empty and [JSON.parse] either throws on it or parses it to
    [null]. *)
Theorem getConfig_default_or_null JSON_parse w :
  exists v,
    getConfig JSON_parse w = (Normal v, w)
    /\ (forall store,
          localStorage w = Some store -> store !! "sora_config" = None ->
          v = config_value default_config /\ v <> VNull)
    /\ (v = VNull
        <-> localStorage w = None
            \/ exists store text,
                localStorage w = Some store
                /\ store !! "sora_config" = Some text
                /\ text <> ""
                /\ (JSON_parse text = Normal VNull \/ exists e, JSON_parse text = Throw e)).
Proof.
  rewrite getConfig_run. eexists. split; [reflexivity|].
  destruct (localStorage w) as [store|].
  2:{ split; [done|]. split; [by left|done]. }
  destruct (store !! "sora_config") as [text|] eqn:Hlookup.
  2:{ split; [by intros ? [= <-] _|]. split; [done|].
      intros [?|(? & ? & [= <-] & ? & _)]; congruence. }
  split; [intros ? [= <-] ?; congruence|].
  destruct (String.eqb_spec text "") as [->|Hne].
  { split; [done|].
    intros [?|(? & ? & [= <-] & Hl & Hne & _)]; [done|].
    rewrite Hlookup in Hl. by injection Hl as <-. }
  destruct (JSON_parse text) as [v|e] eqn:Hparse.
  - split.
    + intros ->. right. exists store, text. eauto.
    + intros [?|(? & ? & [= <-] & Hl & _ & Hv)]; [done|].
      rewrite Hlookup in Hl. injection Hl as <-. rewrite Hparse in Hv.
      destruct Hv as [Hv|[? Hv]]; congruence.
  - split; [|done]. intros _. right. exists store, text. eauto 10.
Qed.

Lemma getConfig_null_text JSON_parse :
  JSON_parse "null" = Normal VNull ->
  getConfig JSON_parse null_stored_world = (Normal VNull, null_stored_world)
  /\ ~ read_fails JSON_parse null_stored_world.
Proof.
  intros Hnull. rewrite getConfig_run. cbn [localStorage null_stored_world].
  rewrite lookup_singleton_eq. cbn. rewrite Hnull. split; [done|].
  intros [?|(store & text & e & [= <-] & Hlookup & Hthrow)]; [done|].
  rewrite lookup_singleton_eq in Hlookup. injection Hlookup as <-.
  by rewrite Hnull in Hthrow.
Qed.

(** C8 fails on the code.  With the JSON text [null] stored under
    [sora_config], the storage is read and the text is parsed without any
    failure, and [getConfig] returns [null]. *)
Lemma getConfig_null_without_failure :
  localStorage null_stored_world = Some {[ "sora_config" := "null" ]}
  /\ JSON_parse_literal "null" = Normal VNull
  /\ getConfig JSON_parse_literal null_stored_world = (Normal VNull, null_stored_world)
  /\ ~ read_fails JSON_parse_literal null_stored_world.
Proof.
  split; [reflexivity|]. split; [reflexivity|].
  by apply getConfig_null_text.
Qed.

(** ** What a connection test leaves behind *)

Lemma login_frame net username password w :
  exists b w' evs,
    login net username password w = (Normal b, w')
    /\ baseUrl (soraApiClient w') = baseUrl (soraApiClient w)
    /\ trace w' = trace w ++ evs.
Proof.
  rewrite login_run. cbn zeta.
  destruct (judge _); eexists _, _, _; (split; [reflexivity|]); cbn;
    rewrite <- ?app_assoc; done.
Qed.

Lemma getStats_frame net w :
  exists s w' evs,
    getStats net w = (Normal s, w')
    /\ soraApiClient w' = soraApiClient w
    /\ trace w' = trace w ++ evs.
Proof.
  rewrite getStats_run. cbn zeta.
  destruct (usable _); eexists _, _, _; (split; [reflexivity|]); done.
Qed.

(** C9. Every [testConnection] returns a result and leaves the shared
    client at the normalised base URL it was given, whatever the result.
    The base URL is set first: the run starts with [setBaseUrl] and then
    the probe, sent to the new base URL.  When the probe fails the result
    is [success: false] and the token held before is still held: whatever
    request the next [getStats] issues carries it to the new base URL, and
    it issues that request when the token is truthy and has a string. *)
Theorem testConnection_moves_base_url net url username password w :
  exists r w',
    testConnection net url username password w = (Normal r, w')
    /\ baseUrl (soraApiClient w') = replace_trailing_slash url
    /\ (exists rest,
          since w w'
          = Invoke MSetBaseUrl :: Invoke MCheckHealth
            :: Fetch (health_request (replace_trailing_slash url)) :: rest)
    /\ ((checkHealth net (setBaseUrl url w).2).1 = Normal false ->
        success r = false
        /\ token (soraApiClient w') = token (soraApiClient w)
        /\ (forall request,
              request ∈ issued w' (getStats net w').2 ->
              request
              = stats_request (replace_trailing_slash url) (token (soraApiClient w)))
        /\ (truthy (token (soraApiClient w)) = true ->
            to_string_throws (token (soraApiClient w)) = false ->
            issued w' (getStats net w').2
            = [stats_request (replace_trailing_slash url) (token (soraApiClient w))])).
Proof.
  pose proof (setBaseUrl_run url w) as Hset.
  rewrite setBaseUrl_run. cbn [snd].
  set (w1 := with_client _ _) in *.
  pose proof (checkHealth_run net w1) as Hhealth. cbn zeta in Hhealth.
  rewrite Hhealth. cbn [fst].
  set (w2 := ran w1 _) in *.
  destruct (probe_ok _).
  - destruct (login_frame net username password w2) as (b & w3 & evs & Hlogin & Hbase & Htrace).
    destruct b.
    + destruct (getStats_frame net w3) as (s & w4 & evs' & Hstats & Hclient & Htrace').
      eexists _, w4. split.
      { unfold testConnection. apply try_catch_normal.
        step Hset. step Hhealth. step Hlogin. step Hstats. reflexivity. }
      split; [by rewrite Hclient, Hbase|].
      split; [|done].
      unfold since. rewrite Htrace', Htrace. cbn [trace w2 w1 ran with_client].
      rewrite <- !app_assoc, drop_app_length. by eexists.
    + eexists _, w3. split.
      { unfold testConnection. apply try_catch_normal.
        step Hset. step Hhealth. step Hlogin. reflexivity. }
      split; [by rewrite Hbase|].
      split; [|done].
      unfold since. rewrite Htrace. cbn [trace w2 w1 ran with_client].
      rewrite <- !app_assoc, drop_app_length. by eexists.
  - eexists _, w2. split.
    { unfold testConnection. apply try_catch_normal.
      step Hset. step Hhealth. reflexivity. }
    split; [done|].
    split.
    { unfold since. cbn [trace w2 w1 ran with_client].
      rewrite <- !app_assoc, drop_app_length. by eexists. }
    intros _. split; [done|]. split; [done|].
    rewrite getStats_issued. cbn [soraApiClient w2 w1 ran with_client baseUrl token].
    split.
    + intros request. destruct (usable _); [|by intros ?%elem_of_nil].
      by intros ->%list_elem_of_singleton.
    + intros Htruthy Hstring. unfold usable. by rewrite Htruthy, Hstring.
Qed.

(** * Further properties of the client *)

(** ** checkHealth *)

(** X1. [checkHealth] never throws and never changes the client or the
    storage.  It issues exactly one request, the probe of the base URL with
    its five-second limit and without any header, also when a token is held.
    It returns true exactly when the probe was answered with [ok]: a
    rejected fetch (timeout, network error) and an answer that is not [ok]
    both give false. *)
Theorem checkHealth_normalises net w :
  exists b w',
    checkHealth net w = (Normal b, w')
    /\ soraApiClient w' = soraApiClient w
    /\ localStorage w' = localStorage w
    /\ issued w w' = [health_request (baseUrl (soraApiClient w))]
    /\ req_headers (health_request (baseUrl (soraApiClient w))) = []
    /\ (b = true
        <-> exists r,
            net (trace w ++ [Invoke MCheckHealth])
              (health_request (baseUrl (soraApiClient w))) = Responded r
            /\ ok r = true).
Proof.
  rewrite checkHealth_run. cbn zeta. eexists _, _. split; [reflexivity|].
  split; [done|]. split; [done|]. split; [by read_trace|]. split; [done|].
  destruct (net _ _) as [e|r]; cbn.
  - split; [done|]. by intros (r & ? & _).
  - split; [by exists r|]. by intros (r' & [= <-] & ?).
Qed.

(** ** getStats and getTokens with a credential *)

(** X2. While the token held is truthy and has a string, as every string
    token has, [getStats] never throws, leaves the client as it is and
    calls [fetch] exactly once, for [/api/stats] under the base URL with the
    token as bearer.  It returns the parsed body when the answer is [ok] and
    its body is JSON, and [null] when the fetch is rejected, when the answer
    is not [ok], and when the body is not JSON. *)
Theorem getStats_with_credential net w :
  truthy (token (soraApiClient w)) = true ->
  to_string_throws (token (soraApiClient w)) = false ->
  exists v w',
    getStats net w = (Normal v, w')
    /\ soraApiClient w' = soraApiClient w
    /\ issued w w'
       = [stats_request (baseUrl (soraApiClient w)) (token (soraApiClient w))]
    /\ (forall e,
          authed_outcome net MGetStats
            (stats_request (baseUrl (soraApiClient w)) (token (soraApiClient w))) w
          = Rejected e ->
          v = VNull)
    /\ (forall r,
          authed_outcome net MGetStats
            (stats_request (baseUrl (soraApiClient w)) (token (soraApiClient w))) w
          = Responded r ->
          ok r = false -> v = VNull)
    /\ (forall r e,
          authed_outcome net MGetStats
            (stats_request (baseUrl (soraApiClient w)) (token (soraApiClient w))) w
          = Responded r ->
          ok r = true -> json r = Throw e -> v = VNull)
    /\ (forall r d,
          authed_outcome net MGetStats
            (stats_request (baseUrl (soraApiClient w)) (token (soraApiClient w))) w
          = Responded r ->
          ok r = true -> json r = Normal d -> v = d).
Proof.
  intros Htruthy Hstring. rewrite getStats_run. cbn zeta.
  unfold usable. rewrite Htruthy, Hstring. cbn [andb negb].
  eexists _, _. split; [reflexivity|]. split; [done|].
  split; [by read_trace|].
  unfold authed_outcome. destruct (net _ _) as [e|r]; [by repeat split|].
  repeat split.
  - by intros e [=].
  - intros r' [= <-] Hok. by rewrite Hok.
  - intros r' e [= <-] Hok Hbody. by rewrite Hok, Hbody.
  - intros r' d [= <-] Hok Hbody. by rewrite Hok, Hbody.
Qed.

Lemma getStats_with_credential_witness :
  truthy (token (soraApiClient logged_in_world)) = true
  /\ to_string_throws (token (soraApiClient logged_in_world)) = false
  /\ exists v w',
      getStats open_service logged_in_world = (Normal v, w')
      /\ soraApiClient w' = soraApiClient logged_in_world
      /\ issued logged_in_world w'
         = [stats_request (baseUrl (soraApiClient logged_in_world))
              (token (soraApiClient logged_in_world))]
      /\ (forall e,
            authed_outcome open_service MGetStats
              (stats_request (baseUrl (soraApiClient logged_in_world))
                 (token (soraApiClient logged_in_world))) logged_in_world
            = Rejected e ->
            v = VNull)
      /\ (forall r,
            authed_outcome open_service MGetStats
              (stats_request (baseUrl (soraApiClient logged_in_world))
                 (token (soraApiClient logged_in_world))) logged_in_world
            = Responded r ->
            ok r = false -> v = VNull)
      /\ (forall r e,
            authed_outcome open_service MGetStats
              (stats_request (baseUrl (soraApiClient logged_in_world))
                 (token (soraApiClient logged_in_world))) logged_in_world
            = Responded r ->
            ok r = true -> json r = Throw e -> v = VNull)
      /\ (forall r d,
            authed_outcome open_service MGetStats
              (stats_request (baseUrl (soraApiClient logged_in_world))
                 (token (soraApiClient logged_in_world))) logged_in_world
            = Responded r ->
            ok r = true -> json r = Normal d -> v = d).
Proof.
  split; [reflexivity|]. split; [reflexivity|].
  apply (getStats_with_credential open_service logged_in_world); reflexivity.
Defined.

(** X3. While the token held is truthy and has a string, as every string
    token has, [getTokens] never throws, leaves the client as it is and
    calls [fetch] exactly once, for [/api/tokens] under the base URL with
    the token as bearer.  It returns the parsed body when the answer is [ok]
    and its body is JSON, whatever that body is, and the empty array when
    the fetch is rejected, when the answer is not [ok], and when the body is
    not JSON. *)
Theorem getTokens_with_credential net w :
  truthy (token (soraApiClient w)) = true ->
  to_string_throws (token (soraApiClient w)) = false ->
  exists v w',
    getTokens net w = (Normal v, w')
    /\ soraApiClient w' = soraApiClient w
    /\ issued w w'
       = [tokens_request (baseUrl (soraApiClient w)) (token (soraApiClient w))]
    /\ (forall e,
          authed_outcome net MGetTokens
            (tokens_request (baseUrl (soraApiClient w)) (token (soraApiClient w))) w
          = Rejected e ->
          v = VArr [])
    /\ (forall r,
          authed_outcome net MGetTokens
            (tokens_request (baseUrl (soraApiClient w)) (token (soraApiClient w))) w
          = Responded r ->
          ok r = false -> v = VArr [])
    /\ (forall r e,
          authed_outcome net MGetTokens
            (tokens_request (baseUrl (soraApiClient w)) (token (soraApiClient w))) w
          = Responded r ->
          ok r = true -> json r = Throw e -> v = VArr [])
    /\ (forall r d,
          authed_outcome net MGetTokens
            (tokens_request (baseUrl (soraApiClient w)) (token (soraApiClient w))) w
          = Responded r ->
          ok r = true -> json r = Normal d -> v = d).
Proof.
  intros Htruthy Hstring. rewrite getTokens_run. cbn zeta.
  unfold usable. rewrite Htruthy, Hstring. cbn [andb negb].
  eexists _, _. split; [reflexivity|]. split; [done|].
  split; [by read_trace|].
  unfold authed_outcome. destruct (net _ _) as [e|r]; [by repeat split|].
  repeat split.
  - by intros e [=].
  - intros r' [= <-] Hok. by rewrite Hok.
  - intros r' e [= <-] Hok Hbody. by rewrite Hok, Hbody.
  - intros r' d [= <-] Hok Hbody. by rewrite Hok, Hbody.
Qed.

Lemma getTokens_with_credential_witness :
  truthy (token (soraApiClient logged_in_world)) = true
  /\ to_string_throws (token (soraApiClient logged_in_world)) = false
  /\ exists v w',
      getTokens open_service logged_in_world = (Normal v, w')
      /\ soraApiClient w' = soraApiClient logged_in_world
      /\ issued logged_in_world w'
         = [tokens_request (baseUrl (soraApiClient logged_in_world))
              (token (soraApiClient logged_in_world))]
      /\ (forall e,
            authed_outcome open_service MGetTokens
              (tokens_request (baseUrl (soraApiClient logged_in_world))
                 (token (soraApiClient logged_in_world))) logged_in_world
            = Rejected e ->
            v = VArr [])
      /\ (forall r,
            authed_outcome open_service MGetTokens
              (tokens_request (baseUrl (soraApiClient logged_in_world))
                 (token (soraApiClient logged_in_world))) logged_in_world
            = Responded r ->
            ok r = false -> v = VArr [])
      /\ (forall r e,
            authed_outcome open_service MGetTokens
              (tokens_request (baseUrl (soraApiClient logged_in_world))
                 (token (soraApiClient logged_in_world))) logged_in_world
            = Responded r ->
            ok r = true -> json r = Throw e -> v = VArr [])
      /\ (forall r d,
            authed_outcome open_service MGetTokens
              (tokens_request (baseUrl (soraApiClient logged_in_world))
                 (token (soraApiClient logged_in_world))) logged_in_world
            = Responded r ->
            ok r = true -> json r = Normal d -> v = d).
Proof.
  split; [reflexivity|]. split; [reflexivity|].
  apply (getTokens_with_credential open_service logged_in_world); reflexivity.
Defined.

(** X17. A token that has no string is as good as none.  When the token
    held is truthy but cannot be converted to a string, as an object with a
    property [toString] that [login] took from the response, the bearer
    header cannot be built: [getStats] returns [null] and [getTokens] the
    empty array, neither calls [fetch], and the client is unchanged. *)
Theorem token_without_string_no_request net w :
  truthy (token (soraApiClient w)) = true ->
  to_string_throws (token (soraApiClient w)) = true ->
  (exists w', getStats net w = (Normal VNull, w')
              /\ issued w w' = [] /\ soraApiClient w' = soraApiClient w)
  /\ (exists w', getTokens net w = (Normal (VArr []), w')
                 /\ issued w w' = [] /\ soraApiClient w' = soraApiClient w).
Proof.
  intros Htruthy Hstring. split; eexists.
  - rewrite getStats_run. cbn zeta. unfold usable. rewrite Htruthy, Hstring.
    cbn [andb negb]. split; [reflexivity|]. split; [by read_trace|done].
  - rewrite getTokens_run. cbn zeta. unfold usable. rewrite Htruthy, Hstring.
    cbn [andb negb]. split; [reflexivity|]. split; [by read_trace|done].
Qed.

Lemma token_without_string_no_request_witness :
  truthy (token (soraApiClient odd_token_world)) = true
  /\ to_string_throws (token (soraApiClient odd_token_world)) = true
  /\ (exists w', getStats open_service odd_token_world = (Normal VNull, w')
                 /\ issued odd_token_world w' = []
                 /\ soraApiClient w' = soraApiClient odd_token_world)
  /\ (exists w', getTokens open_service odd_token_world = (Normal (VArr []), w')
                 /\ issued odd_token_world w' = []
                 /\ soraApiClient w' = soraApiClient odd_token_world).
Proof.
  split; [reflexivity|]. split; [reflexivity|].
  apply (token_without_string_no_request open_service odd_token_world); reflexivity.
Defined.

(** ** login, its request and its log *)

Ltac read_events :=
  unfold logged, issued, invoked, since, with_client, ran; cbn [trace];
  rewrite <- ?app_assoc, ?drop_app_length; cbn.

Lemma judge_accepted_truthy o tok : judge o = Accepted tok -> truthy tok = true.
Proof.
  unfold judge. destruct o as [e|r]; [done|]. destruct (json r) as [d|e]; [|done].
  by intros (_ & _ & ?)%judge_body_accepted.
Qed.

Lemma login_true net username password w w' :
  login net username password w = (Normal true, w') ->
  exists tok,
    judge (login_outcome net username password w) = Accepted tok
    /\ truthy tok = true
    /\ w' = with_client
              (ran w [Invoke MLogin;
                      Fetch (login_request (baseUrl (soraApiClient w)) username password)])
              {| baseUrl := baseUrl (soraApiClient w); token := tok |}.
Proof.
  rewrite login_run. cbn zeta. fold (login_outcome net username password w).
  destruct (judge _) as [tok| |e] eqn:Hjudge; [|done|done].
  intros [= <-]. exists tok. split; [done|]. split; [|done].
  by apply judge_accepted_truthy in Hjudge.
Qed.

Lemma login_false net username password w w' :
  login net username password w = (Normal false, w') ->
  exists tail,
    w' = ran w ([Invoke MLogin;
                 Fetch (login_request (baseUrl (soraApiClient w)) username password)] ++ tail)
    /\ fetches tail = [] /\ invocations tail = [].
Proof.
  rewrite login_run. cbn zeta. destruct (judge _) as [tok| |e]; [done| |]; intros [= <-].
  - exists []. by rewrite app_nil_r.
  - eexists [_]. by rewrite ran_ran.
Qed.

(** X4. [login] never throws.  It keeps the base URL and the storage and
    issues exactly one request, the POST of the credentials to [/api/login]
    under the base URL, with a content type and no bearer, also when a token
    is held.  It calls [console.error] exactly when it caught an exception,
    once and with that exception: a rejected fetch, a body that is not JSON,
    a body that is [null].  Credentials the service refuses are not
    logged. *)
Theorem login_request_and_log net username password w :
  exists b w',
    login net username password w = (Normal b, w')
    /\ baseUrl (soraApiClient w') = baseUrl (soraApiClient w)
    /\ localStorage w' = localStorage w
    /\ issued w w' = [login_request (baseUrl (soraApiClient w)) username password]
    /\ req_headers (login_request (baseUrl (soraApiClient w)) username password)
       = [("Content-Type", Lit "application/json")]
    /\ (forall e, login_outcome net username password w = Rejected e -> logged w w' = [e])
    /\ (forall r e, login_outcome net username password w = Responded r ->
                    json r = Throw e -> logged w w' = [e])
    /\ (forall r d, login_outcome net username password w = Responded r ->
                    json r = Normal d -> d <> VNull -> d <> VUndefined ->
                    logged w w' = [])
    /\ (forall r d, login_outcome net username password w = Responded r ->
                    json r = Normal d -> d = VNull \/ d = VUndefined ->
                    b = false /\ exists e, logged w w' = [e]).
Proof.
  rewrite login_run. cbn zeta. fold (login_outcome net username password w).
  destruct (login_outcome net username password w) as [e|r] eqn:Hout; cbn [judge].
  { eexists _, _. split; [reflexivity|]. do 3 (split; [by read_events|]).
    split; [done|]. split; [intros ? [= <-]; by read_events|]. by repeat split. }
  destruct (json r) as [d|e] eqn:Hbody.
  2:{ eexists _, _. split; [reflexivity|]. do 3 (split; [by read_events|]).
      split; [done|]. split; [done|].
      split; [intros ? ? [= <-] Hb; rewrite Hbody in Hb; injection Hb as <-;
              by read_events|].
      split; intros ? ? [= <-] Hb; by rewrite Hbody in Hb. }
  assert (forall P : login_verdict -> Prop,
            (d = VNull \/ d = VUndefined -> forall e, P (Failed e)) ->
            (d <> VNull -> d <> VUndefined -> forall tok, P (Accepted tok)) ->
            (d <> VNull -> d <> VUndefined -> P Refused) ->
            P (judge_body d)) as Hcases.
  { intros P Hfail Hacc Href. unfold judge_body.
    destruct d; cbn; try (apply Href; done); try (apply Hfail; eauto).
    destruct (truthy _); [|by apply Href].
    destruct (truthy _); [by apply Hacc|by apply Href]. }
  apply Hcases; clear Hcases.
  - intros Hd e. eexists _, _. split; [reflexivity|]. do 3 (split; [by read_events|]).
    split; [done|]. split; [done|].
    split; [intros ? ? [= <-] Hb; by rewrite Hbody in Hb|].
    split; intros ? ? [= <-] Hb; rewrite Hbody in Hb; injection Hb as <-.
    + intros Hn Hu. by destruct Hd.
    + intros _. split; [done|]. exists e. by read_events.
  - intros Hn Hu tok. eexists _, _. split; [reflexivity|].
    do 3 (split; [by read_events|]).
    split; [done|]. split; [done|].
    split; [intros ? ? [= <-] Hb; by rewrite Hbody in Hb|].
    split; intros ? ? [= <-] Hb; rewrite Hbody in Hb; injection Hb as <-.
    + intros _ _. by read_events.
    + by intros [?|?].
  - intros Hn Hu. eexists _, _. split; [reflexivity|].
    do 3 (split; [by read_events|]).
    split; [done|]. split; [done|].
    split; [intros ? ? [= <-] Hb; by rewrite Hbody in Hb|].
    split; intros ? ? [= <-] Hb; rewrite Hbody in Hb; injection Hb as <-.
    + intros _ _. by read_events.
    + by intros [?|?].
Qed.

(** X5. [login] does not look at the HTTP status: with the [ok] flag of
    every response inverted it returns the same result and leaves the same
    world.  A response that is not [ok] whose body carries a truthy
    [success] and [token] logs in. *)
Theorem login_ignores_status net username password w :
  login (flip_status net) username password w = login net username password w.
Proof.
  rewrite !login_run. cbn zeta. unfold flip_status.
  by destruct (net _ _) as [e|r].
Qed.

(** X9. A failed login after a successful one keeps the session: the
    client is unchanged by the failed attempt and still holds the truthy
    token the first login stored.  Whatever request the next [getStats]
    issues is the one authorised with that token, and it issues it when the
    token has a string, as every string token has. *)
Theorem failed_login_keeps_session net username password username' password' w w1 w2 :
  login net username password w = (Normal true, w1) ->
  login net username' password' w1 = (Normal false, w2) ->
  truthy (token (soraApiClient w1)) = true
  /\ soraApiClient w2 = soraApiClient w1
  /\ exists v w3,
      getStats net w2 = (Normal v, w3)
      /\ (forall request,
            request ∈ issued w2 w3 ->
            request
            = stats_request (baseUrl (soraApiClient w)) (token (soraApiClient w1)))
      /\ (to_string_throws (token (soraApiClient w1)) = false ->
          issued w2 w3
          = [stats_request (baseUrl (soraApiClient w)) (token (soraApiClient w1))]).
Proof.
  intros (tok & _ & Htok & ->)%login_true (tail & -> & _)%login_false.
  split; [done|]. split; [done|].
  set (w2 := ran _ _).
  destruct (getStats_frame net w2) as (v & w3 & evs & Hstats & _ & _).
  exists v, w3. split; [done|].
  pose proof (getStats_issued net w2) as Hissued.
  rewrite Hstats in Hissued. cbn [snd] in Hissued. rewrite Hissued.
  cbn [soraApiClient w2 ran with_client baseUrl token]. unfold usable. rewrite Htok.
  split.
  - intros request. destruct (to_string_throws tok); cbn [andb negb];
      [by intros ?%elem_of_nil|].
    by intros ->%list_elem_of_singleton.
  - by intros ->.
Qed.

Lemma failed_login_keeps_session_witness :
  exists w1 w2,
    login service_then_refusing "admin" "admin" pointed_world = (Normal true, w1)
    /\ login service_then_refusing "admin" "wrong" w1 = (Normal false, w2)
    /\ truthy (token (soraApiClient w1)) = true
    /\ soraApiClient w2 = soraApiClient w1
    /\ exists v w3,
        getStats service_then_refusing w2 = (Normal v, w3)
        /\ (forall request,
              request ∈ issued w2 w3 ->
              request
              = stats_request (baseUrl (soraApiClient pointed_world))
                  (token (soraApiClient w1)))
        /\ (to_string_throws (token (soraApiClient w1)) = false ->
            issued w2 w3
            = [stats_request (baseUrl (soraApiClient pointed_world))
                 (token (soraApiClient w1))]).
Proof.
  eexists _, _. split; [reflexivity|]. split; [reflexivity|].
  eapply (failed_login_keeps_session service_then_refusing
            "admin" "admin" "admin" "wrong" pointed_world);
    reflexivity.
Defined.

(** ** testConnection as a whole *)

Lemma getStats_storage net w :
  exists s w', getStats net w = (Normal s, w') /\ localStorage w' = localStorage w.
Proof.
  rewrite getStats_run. cbn zeta. destruct (usable _); eexists _, _; done.
Qed.

Lemma login_storage net username password w :
  exists b w',
    login net username password w = (Normal b, w') /\ localStorage w' = localStorage w.
Proof.
  rewrite login_run. cbn zeta. destruct (judge _); eexists _, _; done.
Qed.

(** The three ways through [testConnection], with the worlds between the
    steps. *)
Lemma testConnection_cases net url username password w :
  exists h w2,
    checkHealth net (setBaseUrl url w).2 = (Normal h, w2)
    /\ ((h = false
         /\ testConnection net url username password w = (Normal result_unavailable, w2))
        \/ (h = true
            /\ exists w3,
                login net username password w2 = (Normal false, w3)
                /\ testConnection net url username password w
                   = (Normal result_login_failed, w3))
        \/ (h = true
            /\ exists w3 s w4,
                login net username password w2 = (Normal true, w3)
                /\ getStats net w3 = (Normal s, w4)
                /\ testConnection net url username password w
                   = (Normal (result_connected s), w4))).
Proof.
  pose proof (setBaseUrl_run url w) as Hset. rewrite Hset. cbn [snd].
  set (w1 := with_client _ _) in *.
  pose proof (checkHealth_run net w1) as Hhealth. cbn zeta in Hhealth.
  eexists _, _. split; [exact Hhealth|].
  destruct (probe_ok _).
  - right. destruct (login_frame net username password (ran w1
      [Invoke MCheckHealth; Fetch (health_request (baseUrl (soraApiClient w1)))]))
      as (b & w3 & evs & Hlogin & _ & _).
    destruct b.
    + right. split; [done|].
      destruct (getStats_frame net w3) as (s & w4 & evs' & Hstats & _ & _).
      exists w3, s, w4. split; [done|]. split; [done|].
      unfold testConnection. apply try_catch_normal.
      step Hset. step Hhealth. step Hlogin. step Hstats. reflexivity.
    + left. split; [done|]. exists w3. split; [done|].
      unfold testConnection. apply try_catch_normal.
      step Hset. step Hhealth. step Hlogin. reflexivity.
  - left. split; [done|].
    unfold testConnection. apply try_catch_normal.
    step Hset. step Hhealth. reflexivity.
Qed.

(** X6. For string arguments [testConnection] never throws and never
    reaches its own handler: its result is one of three, "service
    unavailable" and "login failed" with [success: false] and no [stats]
    property, or "connected" with [success: true] and a [stats] property
    that is [undefined] or truthy (a falsy body of the statistics, such as
    [null], [0] or the empty string, is dropped).  It leaves the storage
    untouched. *)
Theorem testConnection_outcomes net url username password w :
  exists r w',
    testConnection net url username password w = (Normal r, w')
    /\ localStorage w' = localStorage w
    /\ (r = result_unavailable
        \/ r = result_login_failed
        \/ (success r = true
            /\ message r = "连接成功"
            /\ exists v, stats r = Some v /\ (v = VUndefined \/ truthy v = true))).
Proof.
  destruct (testConnection_cases net url username password w)
    as (h & w2 & Hhealth & Hcases).
  rewrite setBaseUrl_run, checkHealth_run in Hhealth. cbn zeta in Hhealth.
  injection Hhealth as _ <-.
  destruct Hcases as [[_ ->]|[(_ & w3 & Hlogin & ->)|(_ & w3 & s & w4 & Hlogin & Hstats & ->)]].
  - eexists _, _. split; [reflexivity|]. split; [done|]. by left.
  - eexists _, _. split; [reflexivity|].
    destruct (login_storage net username password (ran (with_client
      (ran w [Invoke MSetBaseUrl])
      {| baseUrl := replace_trailing_slash url; token := token (soraApiClient w) |})
      [Invoke MCheckHealth; Fetch (health_request (replace_trailing_slash url))]))
      as (b & w3' & Hlogin' & Hstore).
    rewrite Hlogin in Hlogin'. injection Hlogin' as _ <-.
    split; [done|]. right. by left.
  - eexists _, _. split; [reflexivity|].
    destruct (login_storage net username password (ran (with_client
      (ran w [Invoke MSetBaseUrl])
      {| baseUrl := replace_trailing_slash url; token := token (soraApiClient w) |})
      [Invoke MCheckHealth; Fetch (health_request (replace_trailing_slash url))]))
      as (b & w3' & Hlogin' & Hstore).
    rewrite Hlogin in Hlogin'. injection Hlogin' as _ <-.
    destruct (getStats_storage net w3) as (s' & w4' & Hstats' & Hstore').
    rewrite Hstats in Hstats'. injection Hstats' as _ <-.
    split; [by rewrite Hstore', Hstore|].
    right. right. split; [done|]. split; [done|].
    cbn. destruct (truthy s) eqn:Hs; eauto.
Qed.

(** X7. A [testConnection] that answers [success: true] has entered
    [setBaseUrl], [checkHealth], [login] and [getStats], in this order and
    each once, and leaves the client at the tested base URL with a truthy
    token.  When that token has a string, as every string token has, it
    called [fetch] exactly three times: the probe, the login and the
    statistics, the last with the token it holds afterwards.  When the
    token has no string it called [fetch] for the probe and the login only,
    and the [stats] of the result are [undefined]. *)
Theorem testConnection_success_trace net url username password w r w' :
  testConnection net url username password w = (Normal r, w') ->
  success r = true ->
  truthy (token (soraApiClient w')) = true
  /\ baseUrl (soraApiClient w') = replace_trailing_slash url
  /\ invoked w w' = [MSetBaseUrl; MCheckHealth; MLogin; MGetStats]
  /\ (to_string_throws (token (soraApiClient w')) = false ->
      issued w w'
      = [health_request (replace_trailing_slash url);
         login_request (replace_trailing_slash url) username password;
         stats_request (replace_trailing_slash url) (token (soraApiClient w'))])
  /\ (to_string_throws (token (soraApiClient w')) = true ->
      issued w w'
      = [health_request (replace_trailing_slash url);
         login_request (replace_trailing_slash url) username password]
      /\ stats r = Some VUndefined).
Proof.
  intros Hrun Hsuccess.
  destruct (testConnection_cases net url username password w)
    as (h & w2 & Hhealth & Hcases).
  rewrite setBaseUrl_run, checkHealth_run in Hhealth. cbn zeta in Hhealth.
  injection Hhealth as _ <-.
  destruct Hcases as [[_ Heq]|[(_ & w3 & _ & Heq)|(_ & w3 & s & w4 & Hlogin & Hstats & Heq)]];
    rewrite Heq in Hrun; injection Hrun as <- <-; try discriminate Hsuccess.
  apply login_true in Hlogin as (tok & _ & Htok & ->).
  rewrite getStats_run in Hstats. cbn zeta in Hstats.
  cbn [soraApiClient with_client ran token baseUrl] in Hstats.
  unfold usable in Hstats. rewrite Htok in Hstats.
  destruct (to_string_throws tok) eqn:Hstring; cbn [andb negb] in Hstats;
    injection Hstats as <- <-; cbn [soraApiClient with_client ran token baseUrl];
    rewrite Hstring.
  - split; [done|]. split; [done|]. split; [by read_events|].
    split; [done|]. intros _. split; [by read_events|done].
  - split; [done|]. split; [done|]. split; [by read_events|].
    split; [|done]. intros _. by read_events.
Qed.

Lemma testConnection_success_trace_witness :
  exists r w',
    testConnection open_service "http://x/" "admin" "admin" fresh_world = (Normal r, w')
    /\ success r = true
    /\ truthy (token (soraApiClient w')) = true
    /\ baseUrl (soraApiClient w') = replace_trailing_slash "http://x/"
    /\ invoked fresh_world w' = [MSetBaseUrl; MCheckHealth; MLogin; MGetStats]
    /\ (to_string_throws (token (soraApiClient w')) = false ->
        issued fresh_world w'
        = [health_request (replace_trailing_slash "http://x/");
           login_request (replace_trailing_slash "http://x/") "admin" "admin";
           stats_request (replace_trailing_slash "http://x/") (token (soraApiClient w'))])
    /\ (to_string_throws (token (soraApiClient w')) = true ->
        issued fresh_world w'
        = [health_request (replace_trailing_slash "http://x/");
           login_request (replace_trailing_slash "http://x/") "admin" "admin"]
        /\ stats r = Some VUndefined).
Proof.
  eexists _, _. split; [reflexivity|]. split; [reflexivity|].
  eapply (testConnection_success_trace open_service "http://x/" "admin" "admin" fresh_world);
    reflexivity.
Defined.

(** X8. A [testConnection] that answers [success: false] leaves the token
    exactly as it was, while the base URL is the tested one: whatever
    session was held before is now paired with the new base URL.  It
    issued the probe alone, or the probe and the login; the statistics were
    not asked for. *)
Theorem testConnection_failure_keeps_token net url username password w r w' :
  testConnection net url username password w = (Normal r, w') ->
  success r = false ->
  token (soraApiClient w') = token (soraApiClient w)
  /\ baseUrl (soraApiClient w') = replace_trailing_slash url
  /\ (issued w w' = [health_request (replace_trailing_slash url)]
      \/ issued w w'
         = [health_request (replace_trailing_slash url);
            login_request (replace_trailing_slash url) username password])
  /\ (MGetStats ∉ invoked w w').
Proof.
  intros Hrun Hsuccess.
  destruct (testConnection_cases net url username password w)
    as (h & w2 & Hhealth & Hcases).
  rewrite setBaseUrl_run, checkHealth_run in Hhealth. cbn zeta in Hhealth.
  injection Hhealth as _ <-.
  destruct Hcases as [[_ Heq]|[(_ & w3 & Hlogin & Heq)|(_ & w3 & s & w4 & _ & _ & Heq)]];
    rewrite Heq in Hrun; injection Hrun as <- <-; try discriminate Hsuccess.
  - split; [done|]. split; [done|]. split; [left; by read_events|].
    read_events. not_entered.
  - apply login_false in Hlogin as (tail & -> & Hfetches & Hinvocations).
    split; [done|]. split; [done|].
    split.
    + right. read_events. unfold fetches in Hfetches. by rewrite Hfetches.
    + read_events. unfold invocations in Hinvocations. rewrite Hinvocations.
      not_entered.
Qed.

Lemma testConnection_failure_keeps_token_witness :
  exists r w',
    testConnection unreachable "http://y/" "admin" "admin" logged_in_world = (Normal r, w')
    /\ success r = false
    /\ token (soraApiClient w') = token (soraApiClient logged_in_world)
    /\ baseUrl (soraApiClient w') = replace_trailing_slash "http://y/"
    /\ (issued logged_in_world w' = [health_request (replace_trailing_slash "http://y/")]
        \/ issued logged_in_world w'
           = [health_request (replace_trailing_slash "http://y/");
              login_request (replace_trailing_slash "http://y/") "admin" "admin"])
    /\ (MGetStats ∉ invoked logged_in_world w').
Proof.
  eexists _, _. split; [reflexivity|]. split; [reflexivity|].
  eapply (testConnection_failure_keeps_token unreachable "http://y/" "admin" "admin"
            logged_in_world);
    reflexivity.
Defined.

(** ** saveConfig and getConfig *)

Lemma saveConfig_run JSON_stringify quota_exceeded config w :
  saveConfig JSON_stringify quota_exceeded config w
  = match JSON_stringify (config_value config), localStorage w with
    | Normal text, Some store =>
        if quota_exceeded store "sora_config" text then (Normal false, w)
        else (Normal true, with_storage w (<["sora_config" := text]> store))
    | _, _ => (Normal false, w)
    end.
Proof.
  unfold saveConfig, try_catch, bind, lift, localStorage_setItem, ret, with_storage.
  destruct (JSON_stringify _) as [text|e]; [|by destruct (localStorage w)].
  destruct (localStorage w) as [store|]; [|done].
  by destruct (quota_exceeded _ _ _).
Qed.

(** X10. [saveConfig] never throws, never touches the client and issues no
    request.  It returns true exactly when the record has a JSON text, the
    storage can be accessed and the browser accepts the write; the text is
    then the entry [sora_config] of the storage and every other entry is as
    before.  When it returns false the world is unchanged, so an earlier
    saved configuration is still there. *)
Theorem saveConfig_writes JSON_stringify quota_exceeded config w :
  exists b w',
    saveConfig JSON_stringify quota_exceeded config w = (Normal b, w')
    /\ soraApiClient w' = soraApiClient w
    /\ trace w' = trace w
    /\ (b = false -> w' = w)
    /\ (b = true
        <-> exists store text,
            localStorage w = Some store
            /\ JSON_stringify (config_value config) = Normal text
            /\ quota_exceeded store "sora_config" text = false
            /\ localStorage w' = Some (<["sora_config" := text]> store)
            /\ forall key store',
                localStorage w' = Some store' -> key <> "sora_config" ->
                store' !! key = store !! key).
Proof.
  rewrite saveConfig_run.
  destruct (JSON_stringify _) as [text|e] eqn:Htext.
  2:{ eexists _, _. split; [reflexivity|]. do 3 (split; [done|]).
      split; [done|]. by intros (? & ? & _ & ? & _). }
  destruct (localStorage w) as [store|] eqn:Hstore.
  2:{ eexists _, _. split; [reflexivity|]. do 3 (split; [done|]).
      split; [done|]. by intros (? & ? & ? & _). }
  destruct (quota_exceeded _ _ _) eqn:Hquota.
  - eexists _, _. split; [reflexivity|]. do 3 (split; [done|]).
    split; [done|]. intros (? & ? & [= <-] & [= <-] & Hq & _).
    by rewrite Hquota in Hq.
  - eexists _, _. split; [reflexivity|]. do 3 (split; [done|]).
    split; [|done]. intros _. exists store, text.
    do 4 (split; [done|]).
    intros key store' [= <-] Hkey. by rewrite lookup_insert_ne.
Qed.

(** X11. Round trip.  After a [saveConfig] that returned true, [getConfig]
    returns the saved record, provided the runtime reads the text it wrote
    for the record back as that record; what was stored before does not
    matter. *)
Theorem saveConfig_getConfig_round_trip
    JSON_stringify JSON_parse quota_exceeded config w w' text :
  saveConfig JSON_stringify quota_exceeded config w = (Normal true, w') ->
  JSON_stringify (config_value config) = Normal text ->
  text <> "" ->
  JSON_parse text = Normal (config_value config) ->
  getConfig JSON_parse w' = (Normal (config_value config), w').
Proof.
  intros Hsave Htext Hne Hparse. rewrite saveConfig_run, Htext in Hsave.
  destruct (localStorage w) as [store|]; [|done].
  destruct (quota_exceeded _ _ _); [done|]. injection Hsave as <-.
  rewrite getConfig_run. cbn [localStorage with_storage].
  rewrite lookup_insert_eq.
  destruct (String.eqb_spec text "") as [->|_]; [done|]. by rewrite Hparse.
Qed.

Lemma saveConfig_getConfig_round_trip_witness :
  exists w',
    saveConfig stringify_config roomy enabled_config null_stored_world = (Normal true, w')
    /\ stringify_config (config_value enabled_config) = Normal (config_text enabled_config)
    /\ config_text enabled_config <> ""
    /\ parse_config enabled_config (config_text enabled_config)
       = Normal (config_value enabled_config)
    /\ getConfig (parse_config enabled_config) w'
       = (Normal (config_value enabled_config), w').
Proof.
  eexists. split; [reflexivity|]. split; [reflexivity|]. split; [discriminate|].
  split; [reflexivity|].
  apply (saveConfig_getConfig_round_trip stringify_config (parse_config enabled_config)
           roomy enabled_config null_stored_world _ (config_text enabled_config));
    [reflexivity|reflexivity|discriminate|reflexivity].
Defined.

(** X12. [getConfig] does not validate what it reads.  An empty stored
    text counts as no entry and gives the default record, whatever
    [JSON.parse] would make of it; any other text that parses is returned
    as parsed, be it a configuration record or not. *)
Theorem getConfig_reads_verbatim JSON_parse w store text :
  localStorage w = Some store ->
  store !! "sora_config" = Some text ->
  (text = "" -> getConfig JSON_parse w = (Normal (config_value default_config), w))
  /\ (text <> "" ->
      forall v, JSON_parse text = Normal v -> getConfig JSON_parse w = (Normal v, w)).
Proof.
  intros Hstore Hlookup. rewrite getConfig_run, Hstore, Hlookup.
  split.
  - by intros ->.
  - intros Hne v Hparse. destruct (String.eqb_spec text "") as [->|_]; [done|].
    by rewrite Hparse.
Qed.

Lemma getConfig_reads_verbatim_witness :
  localStorage null_stored_world = Some {[ "sora_config" := "null" ]}
  /\ ({[ "sora_config" := "null" ]} : gmap string string) !! "sora_config" = Some "null"
  /\ ("null" = "" ->
      getConfig JSON_parse_literal null_stored_world
      = (Normal (config_value default_config), null_stored_world))
  /\ ("null" <> "" ->
      forall v, JSON_parse_literal "null" = Normal v ->
                getConfig JSON_parse_literal null_stored_world = (Normal v, null_stored_world)).
Proof.
  split; [reflexivity|]. split; [reflexivity|].
  apply (getConfig_reads_verbatim JSON_parse_literal null_stored_world
           {[ "sora_config" := "null" ]} "null"); reflexivity.
Defined.

(** * The page *)

Lemma page_testConnection_run net cfg st w :
  SoraPage.testConnection net cfg st w
  = match testConnection net (cfg_baseUrl cfg) (adminUser cfg) (adminPass cfg) w with
    | (Normal r, w') =>
        (Normal tt,
         {| SoraPage.st_config := SoraPage.st_config st;
            SoraPage.st_loading := SoraPage.st_loading st;
            SoraPage.st_saving := SoraPage.st_saving st;
            SoraPage.st_connection :=
              {| SoraPage.conn_status :=
                   if success r then SoraPage.connected else SoraPage.error;
                 SoraPage.conn_message := message r |};
            SoraPage.st_stats :=
              if success r then
                if truthy (SoraPage.result_stats r) then SoraPage.result_stats r
                else SoraPage.st_stats st
              else VNull;
            SoraPage.notified := SoraPage.notified st |},
         w')
    | (Throw e, w') =>
        (Throw e,
         {| SoraPage.st_config := SoraPage.st_config st;
            SoraPage.st_loading := SoraPage.st_loading st;
            SoraPage.st_saving := SoraPage.st_saving st;
            SoraPage.st_connection :=
              {| SoraPage.conn_status := SoraPage.testing;
                 SoraPage.conn_message := "正在连接..." |};
            SoraPage.st_stats := SoraPage.st_stats st;
            SoraPage.notified := SoraPage.notified st |},
         w')
    end.
Proof.
  unfold SoraPage.testConnection, SoraPage.pbind, SoraPage.call,
    SoraPage.setConnection, SoraPage.setStats, SoraPage.pret. cbn.
  destruct (testConnection net _ _ _ w) as [[r|e] w']; [|done].
  destruct (success r); cbn; [|done].
  by destruct (truthy (SoraPage.result_stats r)).
Qed.

Lemma testConnection_total net url username password w :
  exists r w',
    testConnection net url username password w = (Normal r, w')
    /\ (success r = true -> truthy (token (soraApiClient w')) = true)
    /\ (success r = false -> token (soraApiClient w') = token (soraApiClient w))
    /\ (success r = false -> stats r = None)
    /\ (success r = true ->
        exists v, stats r = Some v /\ (v = VUndefined \/ truthy v = true)).
Proof.
  destruct (testConnection_cases net url username password w)
    as (h & w2 & Hhealth & Hcases).
  rewrite setBaseUrl_run, checkHealth_run in Hhealth. cbn zeta in Hhealth.
  injection Hhealth as _ <-.
  destruct Hcases as [[_ ->]|[(_ & w3 & Hlogin & ->)|(_ & w3 & s & w4 & Hlogin & Hstats & ->)]];
    eexists _, _; (split; [reflexivity|]).
  - by repeat split.
  - apply login_false in Hlogin as (tail & -> & _). by repeat split.
  - apply login_true in Hlogin as (tok & _ & Htok & ->).
    destruct (getStats_frame net (with_client
      (ran (ran (with_client (ran w [Invoke MSetBaseUrl])
                   {| baseUrl := replace_trailing_slash url;
                      token := token (soraApiClient w) |})
              [Invoke MCheckHealth; Fetch (health_request (replace_trailing_slash url))])
         [Invoke MLogin; Fetch (login_request (replace_trailing_slash url) username password)])
      {| baseUrl := replace_trailing_slash url; token := tok |}))
      as (s' & w4' & evs & Hstats' & Hclient & _).
    cbn [soraApiClient with_client ran baseUrl] in Hstats.
    rewrite Hstats in Hstats'. injection Hstats' as _ <-.
    split; [intros _; by rewrite Hclient|]. split; [done|]. split; [done|].
    intros _. cbn. destruct (truthy s) eqn:Hs; eauto.
Qed.

(** The result of the page's connection test in the embedding, where every
    [fetch] settles. *)
Lemma page_testConnection_result net cfg st w :
  exists r st' w',
    SoraPage.testConnection net cfg st w = (Normal tt, st', w')
    /\
    testConnection net (cfg_baseUrl cfg) (adminUser cfg) (adminPass cfg) w = (Normal r, w')
    /\ SoraPage.st_connection st'
       = {| SoraPage.conn_status := if success r then SoraPage.connected else SoraPage.error;
            SoraPage.conn_message := message r |}
    /\ (success r = false -> SoraPage.st_stats st' = VNull)
    /\ (success r = true ->
        exists v, stats r = Some v
                  /\ (v = VUndefined -> SoraPage.st_stats st' = SoraPage.st_stats st)
                  /\ (v <> VUndefined -> SoraPage.st_stats st' = v))
    /\ SoraPage.st_config st' = SoraPage.st_config st
    /\ SoraPage.st_loading st' = SoraPage.st_loading st
    /\ SoraPage.st_saving st' = SoraPage.st_saving st
    /\ SoraPage.notified st' = SoraPage.notified st.
Proof.
  destruct (testConnection_total net (cfg_baseUrl cfg) (adminUser cfg) (adminPass cfg) w)
    as (r & w' & Hrun & _ & _ & _ & Hstats).
  exists r. eexists _, w'.
  rewrite page_testConnection_run, Hrun. split; [reflexivity|]. split; [done|]. cbn.
  split; [done|]. split; [by intros ->|].
  split; [|done].
  intros Hsuccess. rewrite Hsuccess.
  destruct (Hstats Hsuccess) as (v & Hv & Hcases). exists v. split; [done|].
  unfold SoraPage.result_stats. rewrite Hv. cbn.
  split.
  - by intros ->.
  - intros Hne. destruct Hcases as [-> | Hv']; [done|]. by rewrite Hv'.
Qed.

(** X13. A run of the page's connection test that completes, every fetch
    it awaits having settled, ends without exception and with the status
    [connected] when the test succeeded and [error] otherwise, together
    with the message of the result.  On [error] the statistics are cleared.
    On [connected] they are replaced by the ones received, and kept as they
    were, from whatever server they came, when the test brought none.
    Configuration, flags and notifications are not touched. *)
Theorem page_test_settles net cfg st w c st' w' :
  SoraPage.testConnection net cfg st w = (c, st', w') ->
  c = Normal tt
  /\ exists r,
    testConnection net (cfg_baseUrl cfg) (adminUser cfg) (adminPass cfg) w = (Normal r, w')
    /\ SoraPage.st_connection st'
       = {| SoraPage.conn_status := if success r then SoraPage.connected else SoraPage.error;
            SoraPage.conn_message := message r |}
    /\ (success r = false -> SoraPage.st_stats st' = VNull)
    /\ (success r = true ->
        exists v, stats r = Some v
                  /\ (v = VUndefined -> SoraPage.st_stats st' = SoraPage.st_stats st)
                  /\ (v <> VUndefined -> SoraPage.st_stats st' = v))
    /\ SoraPage.st_config st' = SoraPage.st_config st
    /\ SoraPage.st_loading st' = SoraPage.st_loading st
    /\ SoraPage.st_saving st' = SoraPage.st_saving st
    /\ SoraPage.notified st' = SoraPage.notified st.
Proof.
  intros Hrun.
  destruct (page_testConnection_result net cfg st w) as (r & st0 & w0 & Hpage & Hrest).
  rewrite Hpage in Hrun. injection Hrun as <- <- <-.
  split; [done|]. by exists r.
Qed.

Lemma page_test_settles_witness :
  exists c st' w',
    SoraPage.testConnection open_service enabled_config SoraPage.initial fresh_world
    = (c, st', w')
    /\ c = Normal tt
    /\ exists r,
        testConnection open_service (cfg_baseUrl enabled_config) (adminUser enabled_config)
          (adminPass enabled_config) fresh_world
        = (Normal r, w')
        /\ SoraPage.st_connection st'
           = {| SoraPage.conn_status :=
                  if success r then SoraPage.connected else SoraPage.error;
                SoraPage.conn_message := message r |}
        /\ (success r = false -> SoraPage.st_stats st' = VNull)
        /\ (success r = true ->
            exists v, stats r = Some v
                      /\ (v = VUndefined ->
                          SoraPage.st_stats st' = SoraPage.st_stats SoraPage.initial)
                      /\ (v <> VUndefined -> SoraPage.st_stats st' = v))
        /\ SoraPage.st_config st' = SoraPage.st_config SoraPage.initial
        /\ SoraPage.st_loading st' = SoraPage.st_loading SoraPage.initial
        /\ SoraPage.st_saving st' = SoraPage.st_saving SoraPage.initial
        /\ SoraPage.notified st' = SoraPage.notified SoraPage.initial.
Proof.
  eexists _, _, _. split; [reflexivity|].
  eapply (page_test_settles open_service enabled_config SoraPage.initial fresh_world).
  reflexivity.
Defined.

Lemma refreshStats_run net st w :
  SoraPage.refreshStats net st w
  = if SoraPage.is_connected (SoraPage.conn_status (SoraPage.st_connection st)) then
      match getStats net w with
      | (Normal v, w') =>
          if truthy v then
            (Normal tt,
             {| SoraPage.st_config := SoraPage.st_config st;
                SoraPage.st_loading := SoraPage.st_loading st;
                SoraPage.st_saving := SoraPage.st_saving st;
                SoraPage.st_connection := SoraPage.st_connection st;
                SoraPage.st_stats := v;
                SoraPage.notified :=
                  SoraPage.notified st
                  ++ [{| SoraPage.note_type := "success";
                         SoraPage.note_message := "统计已刷新" |}] |},
             w')
          else (Normal tt, st, w')
      | (Throw e, w') => (Throw e, st, w')
      end
    else (Normal tt, st, w).
Proof.
  unfold SoraPage.refreshStats, SoraPage.pbind, SoraPage.read, SoraPage.call,
    SoraPage.setStats, SoraPage.notify, SoraPage.pret.
  destruct (SoraPage.is_connected _); cbn [negb]; [|done].
  destruct (getStats net w) as [[v|e] w']; [|done].
  by destruct (truthy v).
Qed.

(** X14. [refreshStats] does nothing at all unless the status is
    [connected]: no request, no change of state.  When it is, it calls
    [getStats] once and keeps the connection state; a truthy answer
    replaces the statistics and is notified as a success, and a failed
    refresh is silent: the state is unchanged and nothing is notified. *)
Theorem refreshStats_guarded net st w :
  (SoraPage.conn_status (SoraPage.st_connection st) <> SoraPage.connected ->
   SoraPage.refreshStats net st w = (Normal tt, st, w))
  /\ (SoraPage.conn_status (SoraPage.st_connection st) = SoraPage.connected ->
      exists v st' w',
        getStats net w = (Normal v, w')
        /\ SoraPage.refreshStats net st w = (Normal tt, st', w')
        /\ SoraPage.st_connection st' = SoraPage.st_connection st
        /\ (truthy v = false -> st' = st)
        /\ (truthy v = true ->
            SoraPage.st_stats st' = v
            /\ SoraPage.notified st'
               = SoraPage.notified st
                 ++ [{| SoraPage.note_type := "success";
                        SoraPage.note_message := "统计已刷新" |}])).
Proof.
  rewrite refreshStats_run. split.
  - intros Hstatus. by destruct (SoraPage.conn_status (SoraPage.st_connection st)).
  - intros ->. cbn [SoraPage.is_connected].
    destruct (getStats_frame net w) as (v & w' & evs & Hstats & _ & _).
    rewrite Hstats. exists v.
    destruct (truthy v); eexists _, w'; (split; [done|]); (split; [reflexivity|]);
      by repeat split.
Qed.

Lemma saveConfig_total JSON_stringify quota_exceeded config w :
  exists b w',
    saveConfig JSON_stringify quota_exceeded config w = (Normal b, w')
    /\ soraApiClient w' = soraApiClient w
    /\ trace w' = trace w.
Proof.
  rewrite saveConfig_run. destruct (JSON_stringify _); [|by eexists _, _].
  destruct (localStorage w); [|by eexists _, _].
  destruct (quota_exceeded _ _ _); by eexists _, _.
Qed.

(** The result of the page's [saveConfig] in the embedding, where every
    [fetch] settles. *)
Lemma page_saveConfig_result net JSON_stringify quota_exceeded st w :
  exists saved w1 st' w',
    SoraPage.saveConfig net JSON_stringify quota_exceeded st w = (Normal tt, st', w')
    /\
    saveConfig JSON_stringify quota_exceeded (SoraPage.st_config st) w = (Normal saved, w1)
    /\ SoraPage.st_saving st' = false
    /\ SoraPage.st_config st' = SoraPage.st_config st
    /\ SoraPage.notified st'
       = SoraPage.notified st
         ++ [if saved
             then {| SoraPage.note_type := "success"; SoraPage.note_message := "配置已保存" |}
             else {| SoraPage.note_type := "error"; SoraPage.note_message := "保存配置失败" |}]
    /\ (saved && enabled (SoraPage.st_config st) = false ->
        SoraPage.st_connection st' = SoraPage.st_connection st
        /\ SoraPage.st_stats st' = SoraPage.st_stats st
        /\ w' = w1
        /\ issued w w' = [])
    /\ (saved && enabled (SoraPage.st_config st) = true ->
        SoraPage.conn_status (SoraPage.st_connection st') = SoraPage.connected
        \/ SoraPage.conn_status (SoraPage.st_connection st') = SoraPage.error).
Proof.
  destruct (saveConfig_total JSON_stringify quota_exceeded (SoraPage.st_config st) w)
    as (saved & w1 & Hsave & _ & Htrace).
  exists saved, w1.
  unfold SoraPage.saveConfig, SoraPage.pbind, SoraPage.read, SoraPage.call,
    SoraPage.setSaving, SoraPage.notify, SoraPage.pret.
  cbn [SoraPage.st_config]. rewrite Hsave.
  assert (issued w w1 = []) as Hissued.
  { unfold issued, since. by rewrite Htrace, drop_all. }
  destruct saved; [destruct (enabled (SoraPage.st_config st)) eqn:Henabled|].
  - rewrite page_testConnection_run.
    destruct (testConnection_total net (cfg_baseUrl (SoraPage.st_config st))
                (adminUser (SoraPage.st_config st)) (adminPass (SoraPage.st_config st)) w1)
      as (r & w' & Hrun & _).
    rewrite Hrun. eexists _, w'. split; [reflexivity|]. split; [done|]. cbn.
    do 3 (split; [done|]). split; [done|]. intros _. destruct (success r); eauto.
  - eexists _, w1. split; [reflexivity|]. split; [done|]. cbn. by repeat split.
  - eexists _, w1. split; [reflexivity|]. split; [done|]. cbn. by repeat split.
Qed.

(** X15. A run of the page's [saveConfig] that completes, every fetch it
    awaits having settled, ends without exception, with the saving flag
    down again and the configuration as it was, and has notified exactly
    once: a success when the configuration was stored, an error otherwise.
    The connection is tested only after a successful save of an enabled
    configuration, and the status is then [connected] or [error]; in every
    other case the connection state and the statistics are as before and no
    request was issued. *)
Theorem page_save_finishes net JSON_stringify quota_exceeded st w c st' w' :
  SoraPage.saveConfig net JSON_stringify quota_exceeded st w = (c, st', w') ->
  c = Normal tt
  /\ exists saved w1,
    saveConfig JSON_stringify quota_exceeded (SoraPage.st_config st) w = (Normal saved, w1)
    /\ SoraPage.st_saving st' = false
    /\ SoraPage.st_config st' = SoraPage.st_config st
    /\ SoraPage.notified st'
       = SoraPage.notified st
         ++ [if saved
             then {| SoraPage.note_type := "success"; SoraPage.note_message := "配置已保存" |}
             else {| SoraPage.note_type := "error"; SoraPage.note_message := "保存配置失败" |}]
    /\ (saved && enabled (SoraPage.st_config st) = false ->
        SoraPage.st_connection st' = SoraPage.st_connection st
        /\ SoraPage.st_stats st' = SoraPage.st_stats st
        /\ w' = w1
        /\ issued w w' = [])
    /\ (saved && enabled (SoraPage.st_config st) = true ->
        SoraPage.conn_status (SoraPage.st_connection st') = SoraPage.connected
        \/ SoraPage.conn_status (SoraPage.st_connection st') = SoraPage.error).
Proof.
  intros Hrun.
  destruct (page_saveConfig_result net JSON_stringify quota_exceeded st w)
    as (saved & w1 & st0 & w0 & Hpage & Hrest).
  rewrite Hpage in Hrun. injection Hrun as <- <- <-.
  split; [done|]. by exists saved, w1.
Qed.

Lemma page_save_finishes_witness :
  exists c st' w',
    SoraPage.saveConfig open_service stringify_config roomy
      (with_config SoraPage.initial enabled_config) fresh_world
    = (c, st', w')
    /\ c = Normal tt
    /\ exists saved w1,
        saveConfig stringify_config roomy
          (SoraPage.st_config (with_config SoraPage.initial enabled_config)) fresh_world
        = (Normal saved, w1)
        /\ SoraPage.st_saving st' = false
        /\ SoraPage.st_config st'
           = SoraPage.st_config (with_config SoraPage.initial enabled_config)
        /\ SoraPage.notified st'
           = SoraPage.notified (with_config SoraPage.initial enabled_config)
             ++ [if saved
                 then {| SoraPage.note_type := "success";
                         SoraPage.note_message := "配置已保存" |}
                 else {| SoraPage.note_type := "error";
                         SoraPage.note_message := "保存配置失败" |}]
        /\ (saved && enabled (SoraPage.st_config (with_config SoraPage.initial enabled_config))
            = false ->
            SoraPage.st_connection st'
            = SoraPage.st_connection (with_config SoraPage.initial enabled_config)
            /\ SoraPage.st_stats st'
               = SoraPage.st_stats (with_config SoraPage.initial enabled_config)
            /\ w' = w1
            /\ issued fresh_world w' = [])
        /\ (saved && enabled (SoraPage.st_config (with_config SoraPage.initial enabled_config))
            = true ->
            SoraPage.conn_status (SoraPage.st_connection st') = SoraPage.connected
            \/ SoraPage.conn_status (SoraPage.st_connection st') = SoraPage.error).
Proof.
  eexists _, _, _. split; [reflexivity|].
  eapply (page_save_finishes open_service stringify_config roomy
            (with_config SoraPage.initial enabled_config) fresh_world).
  reflexivity.
Defined.

(** ** An invariant of the page *)

Lemma page_step_keeps_token net JSON_stringify quota_exceeded st w st' w' :
  page_step net JSON_stringify quota_exceeded (st, w) (st', w') ->
  (SoraPage.conn_status (SoraPage.st_connection st) = SoraPage.connected ->
   truthy (token (soraApiClient w)) = true) ->
  SoraPage.conn_status (SoraPage.st_connection st') = SoraPage.connected ->
  truthy (token (soraApiClient w')) = true.
Proof.
  intros Hstep Hinv.
  inversion Hstep as [? ? c|? ? b|? ? cfg ? ? Hrun|? ? ? ? Hrun|? ? ? ? Hrun]; subst.
  - done.
  - done.
  - rewrite page_testConnection_run in Hrun.
    destruct (testConnection_total net (cfg_baseUrl cfg) (adminUser cfg) (adminPass cfg) w)
      as (r & w1 & Hapi & Htok & _).
    rewrite Hapi in Hrun. injection Hrun as <- <-. cbn.
    destruct (success r); [intros _; by apply Htok|done].
  - destruct (saveConfig_total JSON_stringify quota_exceeded (SoraPage.st_config st) w)
      as (saved & w1 & Hsave & Hclient & _).
    unfold SoraPage.saveConfig, SoraPage.pbind, SoraPage.read, SoraPage.call,
      SoraPage.setSaving, SoraPage.notify, SoraPage.pret in Hrun.
    cbn [SoraPage.st_config] in Hrun. rewrite Hsave in Hrun.
    destruct saved; [destruct (enabled (SoraPage.st_config st))|].
    + rewrite page_testConnection_run in Hrun.
      destruct (testConnection_total net (cfg_baseUrl (SoraPage.st_config st))
                  (adminUser (SoraPage.st_config st)) (adminPass (SoraPage.st_config st)) w1)
        as (r & w2 & Hapi & Htok & _).
      rewrite Hapi in Hrun. injection Hrun as <- <-. cbn.
      destruct (success r); [intros _; by apply Htok|done].
    + injection Hrun as <- <-. cbn. rewrite Hclient. exact Hinv.
    + injection Hrun as <- <-. cbn. rewrite Hclient. exact Hinv.
  - rewrite refreshStats_run in Hrun.
    destruct (SoraPage.is_connected _).
    + destruct (getStats_frame net w) as (v & w1 & evs & Hstats & Hclient & _).
      rewrite Hstats in Hrun.
      destruct (truthy v); injection Hrun as <- <-; cbn; rewrite Hclient; exact Hinv.
    + injection Hrun as <- <-. exact Hinv.
Qed.

Lemma reachable_connected_token net JSON_stringify quota_exceeded w0 fin :
  rtc (page_step net JSON_stringify quota_exceeded) (SoraPage.initial, w0) fin ->
  SoraPage.conn_status (SoraPage.st_connection fin.1) = SoraPage.connected ->
  truthy (token (soraApiClient fin.2)) = true.
Proof.
  revert fin.
  refine (rtc_ind_r
            (fun fin : SoraPage.PageState * World =>
               SoraPage.conn_status (SoraPage.st_connection fin.1) = SoraPage.connected ->
               truthy (token (soraApiClient fin.2)) = true)
            (SoraPage.initial, w0) _ _).
  - done.
  - intros [st1 w1] [st2 w2] _ Hstep IH. cbn in *.
    eapply page_step_keeps_token; [exact Hstep|exact IH].
Qed.

(** X16. Invariant of the page.  Starting from the initial state of the
    component, over any world, and after any sequence of changes of the
    form and completed runs of its handlers: whenever the status is
    [connected], the shared client holds a truthy token.  When that token
    has a string, as every string token has, a refresh of the statistics
    asks the service, with exactly one authorised request. *)
Theorem connected_holds_token net JSON_stringify quota_exceeded w0 st w :
  rtc (page_step net JSON_stringify quota_exceeded) (SoraPage.initial, w0) (st, w) ->
  SoraPage.conn_status (SoraPage.st_connection st) = SoraPage.connected ->
  truthy (token (soraApiClient w)) = true
  /\ (to_string_throws (token (soraApiClient w)) = false ->
      issued w (getStats net w).2
      = [stats_request (baseUrl (soraApiClient w)) (token (soraApiClient w))]).
Proof.
  intros Hreach Hstatus.
  assert (truthy (token (soraApiClient w)) = true) as Htok.
  { by apply (reachable_connected_token _ _ _ _ (st, w) Hreach). }
  split; [done|]. intros Hstring. apply getStats_issues.
  unfold usable. by rewrite Htok, Hstring.
Qed.

Lemma connected_holds_token_witness :
  exists st w,
    rtc (page_step open_service stringify_config roomy)
      (SoraPage.initial, fresh_world) (st, w)
    /\ SoraPage.conn_status (SoraPage.st_connection st) = SoraPage.connected
    /\ truthy (token (soraApiClient w)) = true
    /\ (to_string_throws (token (soraApiClient w)) = false ->
        issued w (getStats open_service w).2
        = [stats_request (baseUrl (soraApiClient w)) (token (soraApiClient w))]).
Proof.
  eexists _, _.
  split.
  { apply rtc_once. apply (step_testConnection _ _ _ _ _ enabled_config). reflexivity. }
  split; [reflexivity|].
  eapply (connected_holds_token open_service stringify_config roomy fresh_world).
  - apply rtc_once. apply (step_testConnection _ _ _ _ _ enabled_config). reflexivity.
  - reflexivity.
Defined.
